(** * Stractor: structural outline extraction (src/stractor/core.py)

    A shallow embedding of [Stractor] and of the part of the parse engine
    it talks to, followed by the properties of the extraction engine.

    Conventions.
    - A Python [str] is represented by its UTF-8 encoding, a Rocq [string]
      (one [ascii] per byte); [encode('utf-8')] and [decode('utf-8')] are then
      the identity, and slicing the contents by a node's byte range is
      [substring].
    - Exceptions are values of [exn], carried by the [Result] monad.
    - The syntax tree is a value of [Node]; the queries of core.py are
      values of [Pattern], written next to the S-expression they stand for.
    - The query facility of the engine is a value of the class [Language];
      a statement that names no engine is about [document_order], and the
      statements on the order of the results are about every engine within
      the contract [Order.conforms]. *)

From Stdlib Require Import String Ascii List Arith Bool Lia Permutation.
Import ListNotations.

Open Scope string_scope.
Open Scope list_scope.

Set Warnings "-register-all".

(* ================================================================== *)
(** ** Python string operations used by core.py *)
(* ================================================================== *)

Module PyStr.

Definition dquote : ascii := ascii_of_nat 34.
Definition newline : ascii := ascii_of_nat 10.

(** The character set of the quote-stripping calls of core.py: the single
    and the double quote. *)
Definition quote_chars : string := String "'" (String dquote "").

(** The argument of [strip('()')]. *)
Definition paren_chars : string := "()".

Fixpoint mem_char (c : ascii) (chars : string) : bool :=
  match chars with
  | "" => false
  | String d chars' => Ascii.eqb c d || mem_char c chars'
  end.

Fixpoint rev_append (s acc : string) : string :=
  match s with
  | "" => acc
  | String c s' => rev_append s' (String c acc)
  end.

Definition rev (s : string) : string := rev_append s "".

(** [s.lstrip(chars)], [s.rstrip(chars)], [s.strip(chars)]: every leading
    (trailing) character that belongs to [chars] is removed. *)
Fixpoint lstrip_chars (chars s : string) : string :=
  match s with
  | "" => ""
  | String c s' => if mem_char c chars then lstrip_chars chars s' else s
  end.

Fixpoint rstrip_chars (chars s : string) : string :=
  match s with
  | "" => ""
  | String c s' =>
      match rstrip_chars chars s' with
      | "" => if mem_char c chars then "" else String c ""
      | r => String c r
      end
  end.

Definition strip_chars (chars s : string) : string :=
  rstrip_chars chars (lstrip_chars chars s).

(** Whitespace in the sense of [str.isspace], on the UTF-8 encoding:
    U+0009..U+000D, U+001C..U+001F, U+0020 (one byte); U+0085, U+00A0
    (two bytes); U+1680, U+2000..U+200A, U+2028, U+2029, U+202F, U+205F,
    U+3000 (three bytes). *)
Definition space1 (a : ascii) : bool :=
  let n := nat_of_ascii a in
  (((9 <=? n) && (n <=? 13)) || ((28 <=? n) && (n <=? 32)))%nat.

Definition space2 (a b : ascii) : bool :=
  let x := nat_of_ascii a in
  let y := nat_of_ascii b in
  ((x =? 194) && ((y =? 133) || (y =? 160)))%nat.

Definition space3 (a b c : ascii) : bool :=
  let x := nat_of_ascii a in
  let y := nat_of_ascii b in
  let z := nat_of_ascii c in
  (((x =? 225) && (y =? 154) && (z =? 128))
   || ((x =? 226) && (y =? 128)
       && (((128 <=? z) && (z <=? 138)) || (z =? 168) || (z =? 169) || (z =? 175)))
   || ((x =? 226) && (y =? 129) && (z =? 159))
   || ((x =? 227) && (y =? 128) && (z =? 128)))%nat.

(** [lstrip_with s2 s3] removes leading whitespace; [s2] and [s3] recognise
    the two- and three-byte characters (given in reading order). *)
Fixpoint lstrip_with (s2 : ascii -> ascii -> bool)
         (s3 : ascii -> ascii -> ascii -> bool) (s : string) : string :=
  match s with
  | "" => ""
  | String a s1 =>
      if space1 a then lstrip_with s2 s3 s1
      else
        match s1 with
        | String b t2 =>
            if s2 a b then lstrip_with s2 s3 t2
            else
              match t2 with
              | String c t3 => if s3 a b c then lstrip_with s2 s3 t3 else s
              | "" => s
              end
        | "" => s
        end
  end.

Definition lstrip (s : string) : string := lstrip_with space2 space3 s.

(** Trailing whitespace is leading whitespace of the reversed bytes. *)
Definition rstrip (s : string) : string :=
  rev (lstrip_with (fun a b => space2 b a) (fun a b c => space3 c b a) (rev s)).

(** [s.strip()]. *)
Definition strip (s : string) : string := rstrip (lstrip s).

(** [s.startswith(p)] is [String.prefix p s]. *)
Definition startswith (s p : string) : bool := String.prefix p s.

Definition endswith (s p : string) : bool := String.prefix (rev p) (rev s).

(** [needle in s]. *)
Fixpoint contains (needle s : string) : bool :=
  String.prefix needle s
  || match s with
     | "" => false
     | String _ s' => contains needle s'
     end.

(** [s.split('\n')]: never empty, the empty string gives one empty line. *)
Fixpoint split_lines (s : string) : list string :=
  match s with
  | "" => [""]
  | String c s' =>
      if Ascii.eqb c newline then "" :: split_lines s'
      else
        match split_lines s' with
        | l :: ls => String c l :: ls
        | [] => [String c ""]
        end
  end.

(** ['\n'.join(ls)]. *)
Fixpoint join_lines (ls : list string) : string :=
  match ls with
  | [] => ""
  | [l] => l
  | l :: ls' => (l ++ String newline (join_lines ls'))%string
  end.

(** [s[1:-1]]. *)
Definition drop_ends (s : string) : string :=
  substring 1 (String.length s - 2) s.

(** Truthiness of a [str]: non-empty. *)
Definition truthy (s : string) : bool :=
  match s with
  | "" => false
  | _ => true
  end.

(** [s if s else None]. *)
Definition or_none (s : string) : option string :=
  if truthy s then Some s else None.

End PyStr.

(* ================================================================== *)
(** ** The parse engine: syntax trees and structural queries *)
(* ================================================================== *)

(** The parse engine (tree-sitter with its Python grammar, reached through
    [tree_sitter_language_pack]) is an external collaborator: its code is
    not part of the repository, and core.py only uses its nodes and its
    query facility.  It is modelled here from its contract in section 6 of
    the specification (a syntax tree whose nodes expose a byte range; a
    pattern-match facility that returns bindings of capture names to
    nodes) and from the query language the patterns of core.py are written
    in.  Which matches a query has is fixed by [query_matches] and
    [query_captures]; the order in which an engine delivers them is its
    own, and [Stractor] reaches the engine through the class [Language].
    The parser itself is a parameter of [parse]. *)

Module Engine.

(** Modelled from the spec: the nodes of the engine's syntax tree.  A node
    has a grammar kind ([node.type]), a byte range, and named children, each
    with the field name it occupies in its parent, if any.  Anonymous
    tokens (keywords, punctuation) are left out: no query of core.py can
    match them. *)
Inductive Node : Type :=
  mkNode {
      type : string;
      start_byte : nat;
      end_byte : nat;
      children : list (option string * Node)
    }.

(** Nodes in document order: a node, then its children from left to
    right, each with its own descendants. *)
Fixpoint preorder (n : Node) : list Node :=
  n :: flat_map (fun fc => match fc with (_, c) => preorder c end) (children n).

Definition option_string_eqb (a b : option string) : bool :=
  match a, b with
  | None, None => true
  | Some x, Some y => String.eqb x y
  | _, _ => false
  end.

(** Modelled from the spec: the identity of the engine's nodes, as
    structural equality (two nodes of one tree differ in kind, range or
    children). *)
Fixpoint Node_eqb (a b : Node) {struct a} : bool :=
  String.eqb (type a) (type b)
  && Nat.eqb (start_byte a) (start_byte b)
  && Nat.eqb (end_byte a) (end_byte b)
  && (fix all2 (xs ys : list (option string * Node)) {struct xs} : bool :=
        match xs, ys with
        | [], [] => true
        | (f, x) :: xs', (g, y) :: ys' =>
            option_string_eqb f g && Node_eqb x y && all2 xs' ys'
        | _, _ => false
        end) (children a) (children b).

(** Modelled from the spec: the engine's query patterns, for the part of
    the query language core.py uses.  A pattern is [(kind sub ...) @capture];
    a sub-pattern may carry a field name ([name: (identifier)]) and the
    quantifier [?]. *)
Inductive Pattern : Type :=
  PNode (kind : string) (capture : option string)
        (subs : list (option string * bool * Pattern)).

(** Sub-pattern constructors: a required child, an optional child. *)
Definition child (field : option string) (p : Pattern)
  : option string * bool * Pattern := (field, false, p).
Definition child_opt (field : option string) (p : Pattern)
  : option string * bool * Pattern := (field, true, p).

(** The captures of one match, in pattern order. *)
Definition Captures : Type := list (string * Node).

(** A match as py-tree-sitter returns it: the pattern index and the
    captures. *)
Definition Match : Type := (nat * Captures)%type.

Definition field_ok (wanted actual : option string) : bool :=
  match wanted with
  | None => true
  | Some f => match actual with
              | Some g => String.eqb f g
              | None => false
              end
  end.

(** Every element of a list together with the elements after it. *)
Fixpoint splits {A : Type} (l : list A) : list (A * list A) :=
  match l with
  | [] => []
  | x :: l' => (x, l') :: splits l'
  end.

Definition self_capture (capture : option string) (n : Node) : Captures :=
  match capture with
  | Some name => [(name, n)]
  | None => []
  end.

(** Modelled from the spec: the engine's pattern matching.  [match_at p n]
    lists all the ways [p] matches at [n].  The node must have the pattern's
    kind; the sub-patterns match children of the node in the order they are
    written, each at a child that comes after the child the previous one
    matched (sub-patterns are not anchored, so other children may lie in
    between); a sub-pattern under [?] may also be left out. *)
Fixpoint match_at (p : Pattern) (n : Node) {struct p} : list Captures :=
  match p with
  | PNode kind capture subs =>
      if String.eqb (type n) kind then
        map (fun m => self_capture capture n ++ m)
            ((fix match_subs (subs : list (option string * bool * Pattern))
                  (cs : list (option string * Node)) {struct subs}
                : list Captures :=
                match subs with
                | [] => [[]]
                | (field, optional, q) :: subs' =>
                    flat_map
                      (fun s =>
                         match s with
                         | ((f, c), after) =>
                             if field_ok field f then
                               flat_map
                                 (fun m1 => map (fun m2 => m1 ++ m2)
                                                (match_subs subs' after))
                                 (match_at q c)
                             else []
                         end)
                      (splits cs)
                    ++ (if optional then match_subs subs' cs else [])
                end) subs (children n))
      else []
  end.

(** The matching of a list of sub-patterns against a list of children, as in
    [match_at], stated on its own. *)
Fixpoint match_subs (subs : list (option string * bool * Pattern))
         (cs : list (option string * Node)) {struct subs} : list Captures :=
  match subs with
  | [] => [[]]
  | (field, optional, q) :: subs' =>
      flat_map
        (fun s =>
           match s with
           | ((f, c), after) =>
               if field_ok field f then
                 flat_map
                   (fun m1 => map (fun m2 => m1 ++ m2) (match_subs subs' after))
                   (match_at q c)
               else []
           end)
        (splits cs)
      ++ (if optional then match_subs subs' cs else [])
  end.

Definition capture_eqb (a b : string * Node) : bool :=
  String.eqb (fst a) (fst b) && Node_eqb (snd a) (snd b).

(** Modelled from the spec: the engine's treatment of [?].  With optional
    sub-patterns the engine keeps the longest matches only: a match that
    another match of the same pattern at the same node subsumes is not
    reported.  [subsumes big small]: [big] binds everything [small] binds,
    and more. *)
Definition subsumes (big small : Captures) : bool :=
  (List.length small <? List.length big)%nat
  && forallb (fun x => existsb (capture_eqb x) big) small.

Definition maximal (ms : list Captures) : list Captures :=
  filter (fun m => negb (existsb (fun m' => subsumes m' m) ms)) ms.

(** The matches the engine reports for the pattern at one node; the
    queries of core.py have a single pattern, of index 0. *)
Definition matches_at (p : Pattern) (n : Node) : list Match :=
  map (fun m => (0, m)) (maximal (match_at p n)).

(** Modelled from the spec: the matches [query.matches(root)] has, those
    of the pattern at every node of the subtree of [root].  This reference
    list goes by the node the pattern is matched at, in document order; an
    engine may deliver the same matches in another order. *)
Definition query_matches (p : Pattern) (root : Node) : list Match :=
  flat_map (matches_at p) (preorder root).

Fixpoint capture_names (p : Pattern) : list string :=
  match p with
  | PNode _ capture subs =>
      match capture with
      | Some name => [name]
      | None => []
      end
      ++ flat_map (fun s => match s with (_, q) => capture_names q end) subs
  end.

Definition captured (name : string) (ms : list Match) (n : Node) : bool :=
  existsb (fun m => existsb (capture_eqb (name, n)) (snd m)) ms.

(** Modelled from the spec: the dict [query.captures(root)] has, from
    capture name to the nodes captured under that name by some match, each
    node once.  A name under which nothing was captured is not a key of the
    dict.  This reference dict lists the nodes in document order; an engine
    may list the same nodes in another order. *)
Definition query_captures (p : Pattern) (root : Node)
  : list (string * list Node) :=
  flat_map
    (fun name =>
       match filter (captured name (query_matches p root)) (preorder root) with
       | [] => []
       | ns => [(name, ns)]
       end)
    (nodup string_dec (capture_names p)).

(** The query facility as [Stractor] reaches it: [self.lang.query(scm)]
    with its two methods, [query.matches(node)] and [query.captures(node)]. *)
Class Language : Type :=
  {
    matches : Pattern -> Node -> list Match;
    captures : Pattern -> Node -> list (string * list Node)
  }.

(** The engine that delivers the reference lists as they stand; it is the
    engine of every statement that names no other. *)
#[global] Instance document_order : Language :=
  {| matches := query_matches; captures := query_captures |}.

End Engine.

(* ================================================================== *)
(** ** Exceptions *)
(* ================================================================== *)

(** [ParseError] is the failure of the engine's parser (section 6 of the
    specification); [KeyError] and [TypeError] are Python's. *)
Inductive exn : Type :=
| ParseError
| KeyError (key : string)
| TypeError.

Inductive Result (A : Type) : Type :=
| Ok (a : A)
| Raise (e : exn).

Arguments Ok {A} a.
Arguments Raise {A} e.

Definition bind {A B : Type} (r : Result A) (k : A -> Result B) : Result B :=
  match r with
  | Ok a => k a
  | Raise e => Raise e
  end.

Notation "x <- r ;; k" := (bind r (fun x => k))
  (at level 61, r at next level, right associativity).

(** A [for] loop whose body may raise: the state is threaded through the
    elements from left to right and the first exception ends the loop. *)
Definition for_each {S A : Type} (body : S -> A -> Result S)
           (xs : list A) (init : S) : Result S :=
  fold_left (fun acc x => s <- acc ;; body s x) xs (Ok init).

(** [d[key]] on a dict. *)
Fixpoint getitem {V : Type} (d : list (string * V)) (key : string) : Result V :=
  match d with
  | [] => Raise (KeyError key)
  | (k, v) :: d' => if String.eqb k key then Ok v else getitem d' key
  end.

(* ================================================================== *)
(** ** The document model (src/stractor/model.py) *)
(* ================================================================== *)

Module Function.
Record t : Type :=
  mk {
      name : string;
      parameters : option string;
      return_type : option string;
      documentation : option string;
      body : option string
    }.
End Function.

Module Entity.
Record t : Type :=
  mk {
      name : string;
      type : string;
      documentation : option string;
      methods : list Function.t
    }.
End Entity.

Module SourceFile.
Record t : Type :=
  mk {
      path : string;
      documentation : option string;
      imports : list string;
      top_level_attributes : list string;
      top_level_functions : list Function.t;
      entities : list Entity.t
    }.
End SourceFile.

(* ================================================================== *)
(** ** The extraction engine (src/stractor/core.py, class Stractor) *)
(* ================================================================== *)

Module Stractor.
Import Engine.

(** The instance state once [parse] has set it: the encoded source and
    its tree. *)
Record t : Type :=
  mk {
      contents : string;
      tree : Node
    }.

(** [self.contents[node.start_byte:node.end_byte]], the empty string for
    [None]. *)
Definition _text (self : t) (node : option Node) : string :=
  match node with
  | None => ""
  | Some n => substring (start_byte n) (end_byte n - start_byte n) (contents self)
  end.

(** [match[1][key][0]] when [key] is bound in the match, else [None]. *)
Fixpoint lookup_capture (captures : Captures) (key : string) : option Node :=
  match captures with
  | [] => None
  | (k, n) :: captures' =>
      if String.eqb k key then Some n else lookup_capture captures' key
  end.

Definition _get_node (m : Match) (key : string) : option Node :=
  lookup_capture (snd m) key.

(** *** The queries *)

Definition string_statement (capture_statement capture_string : option string)
  : Pattern :=
  PNode "expression_statement" capture_statement
        [child None (PNode "string" capture_string [])].

(** [(module (expression_statement (string) @doc))] *)
Definition module_docstring_scm : Pattern :=
  PNode "module" None [child None (string_statement None (Some "doc"))].

(** [(module (import_statement)? @import (import_from_statement)? @import)] *)
Definition imports_scm : Pattern :=
  PNode "module" None
        [child_opt None (PNode "import_statement" (Some "import") []);
         child_opt None (PNode "import_from_statement" (Some "import") [])].

(** [(module (expression_statement (assignment) @assignment))] *)
Definition attributes_scm : Pattern :=
  PNode "module" None
        [child None
               (PNode "expression_statement" None
                      [child None (PNode "assignment" (Some "assignment") [])])].

(** [(function_definition name: (identifier) @name
      parameters: (parameters) @params return_type: (type)? @return_type
      body: (block) @body)] *)
Definition methods_scm : Pattern :=
  PNode "function_definition" None
        [child (Some "name") (PNode "identifier" (Some "name") []);
         child (Some "parameters") (PNode "parameters" (Some "params") []);
         child_opt (Some "return_type") (PNode "type" (Some "return_type") []);
         child (Some "body") (PNode "block" (Some "body") [])].

(** [(module (function_definition ...))], the same pattern under the
    module node. *)
Definition functions_scm : Pattern :=
  PNode "module" None [child None methods_scm].

(** [(class_definition name: (identifier) @name
      superclasses: (argument_list)? @superclasses
      body: (block (expression_statement (string))? @doc)) @class_node] *)
Definition classes_scm : Pattern :=
  PNode "class_definition" (Some "class_node")
        [child (Some "name") (PNode "identifier" (Some "name") []);
         child_opt (Some "superclasses")
                   (PNode "argument_list" (Some "superclasses") []);
         child (Some "body")
               (PNode "block" None
                      [child_opt None (string_statement (Some "doc") None)])].

(** [(block (expression_statement (string) @doc))] *)
Definition block_docstring_scm : Pattern :=
  PNode "block" None [child None (string_statement None (Some "doc"))].

(** *** Docstrings *)

(** [text.strip(quotes).strip()], the cleaning applied to every
    docstring. *)
Definition clean_docstring (text : string) : string :=
  PyStr.strip (PyStr.strip_chars PyStr.quote_chars text).

Section Queries.
Context {lang : Language}.

Definition _get_module_docstring (self : t) : option string :=
  match matches module_docstring_scm (tree self) with
  | first_match :: _ =>
      match _get_node first_match "doc" with
      | Some doc_node =>
          let doc_text := _text self (Some doc_node) in
          let doc_text := PyStr.strip_chars PyStr.quote_chars doc_text in
          let doc_text := PyStr.strip doc_text in
          PyStr.or_none doc_text
      | None => None
      end
  | [] => None
  end.

(** *** Imports and attributes *)

(** The loop of [_get_imports] and [_get_top_level_attributes]: the text
    of every node, appended when it is not empty. *)
Definition collect_texts (self : t) (nodes : list Node) : list string :=
  fold_left
    (fun acc node =>
       let text := _text self (Some node) in
       if PyStr.truthy text then acc ++ [text] else acc)
    nodes [].

Definition _get_imports (self : t) : Result (list string) :=
  let captures := captures imports_scm (tree self) in
  nodes <- getitem captures "import" ;;
  Ok (collect_texts self nodes).

Definition _get_top_level_attributes (self : t) : Result (list string) :=
  let captures := captures attributes_scm (tree self) in
  nodes <- getitem captures "assignment" ;;
  Ok (collect_texts self nodes).

(** *** The docstring/body splitter *)

(** One turn of the line loop of [_extract_docstring_and_body]; the state
    is [(filtered_lines, skip_docstring)]. *)
Definition filter_step (needle : string) (st : list string * bool)
           (line : string) : list string * bool :=
  let '(filtered_lines, skip_docstring) := st in
  if PyStr.contains needle line && negb skip_docstring then
    (filtered_lines, true)
  else if negb skip_docstring || PyStr.truthy (PyStr.strip line) then
    (filtered_lines ++ [line], false)
  else (filtered_lines, skip_docstring).

Definition filter_lines (needle : string) (body_lines : list string)
  : list string :=
  fst (fold_left (filter_step needle) body_lines ([], false)).

(** The final clean-up of the body: trimmed, and one pair of outer braces
    dropped. *)
Definition clean_body (body : string) : string :=
  if PyStr.truthy body then
    let body := PyStr.strip body in
    if PyStr.startswith body "{" && PyStr.endswith body "}" then
      PyStr.strip (PyStr.drop_ends body)
    else body
  else body.

Definition _extract_docstring_and_body (self : t) (body_node : option Node)
  : option string * option string :=
  match body_node with
  | None => (None, None)
  | Some node =>
      let full_body_text := _text self (Some node) in
      let matches := matches block_docstring_scm node in
      let '(docstring, body) :=
        match matches with
        | first_match :: _ =>
            match _get_node first_match "doc" with
            | Some doc_node =>
                let docstring_text := _text self (Some doc_node) in
                let docstring := clean_docstring docstring_text in
                let docstring_with_quotes := _text self (Some doc_node) in
                let body_lines := PyStr.split_lines full_body_text in
                let filtered_lines :=
                  filter_lines (PyStr.strip docstring_with_quotes) body_lines in
                (Some docstring, PyStr.strip (PyStr.join_lines filtered_lines))
            | None => (None, full_body_text)
            end
        | [] => (None, full_body_text)
        end in
      (docstring, Some (clean_body body))
  end.

(** *** Functions and methods *)

(** [x if x else None] on an optional string. *)
Definition opt_or_none (x : option string) : option string :=
  match x with
  | Some s => PyStr.or_none s
  | None => None
  end.

(** The body of the loops of [_get_module_functions] and
    [_get_methods_of_class]: the [Function] built from one match. *)
Definition function_of_match (self : t) (m : Match) : Function.t :=
  let name := _text self (_get_node m "name") in
  let params := _text self (_get_node m "params") in
  let return_type := _text self (_get_node m "return_type") in
  let body_node := _get_node m "body" in
  let '(doc, body) := _extract_docstring_and_body self body_node in
  let params :=
    if PyStr.truthy params then PyStr.strip_chars PyStr.paren_chars params
    else params in
  Function.mk name
              (PyStr.or_none params)
              (PyStr.or_none return_type)
              (opt_or_none doc)
              (opt_or_none body).

Definition collect_functions (self : t) (matches : list Match)
  : list Function.t :=
  fold_left (fun functions m => functions ++ [function_of_match self m])
            matches [].

Definition _get_module_functions (self : t) : list Function.t :=
  collect_functions self (matches functions_scm (tree self)).

(** [query.matches(class_node)] needs a node: [None] is a [TypeError]. *)
Definition _get_methods_of_class (self : t) (class_node : option Node)
  : Result (list Function.t) :=
  match class_node with
  | None => Raise TypeError
  | Some node => Ok (collect_functions self (matches methods_scm node))
  end.

(** *** Classes *)

Definition entity_of_match (self : t) (m : Match) : Result Entity.t :=
  let name := _text self (_get_node m "name") in
  let doc := _text self (_get_node m "doc") in
  let class_node := _get_node m "class_node" in
  let doc := if PyStr.truthy doc then clean_docstring doc else doc in
  methods <- _get_methods_of_class self class_node ;;
  Ok (Entity.mk name "class" (PyStr.or_none doc) methods).

Definition _get_classes (self : t) : Result (list Entity.t) :=
  for_each
    (fun entities m =>
       entity <- entity_of_match self m ;;
       Ok (entities ++ [entity]))
    (matches classes_scm (tree self)) [].

(** *** The parse controller *)

(** [parse(source_code, path)]; [parser_parse] is [self.parser.parse], the
    engine's parser. *)
Definition parse (parser_parse : string -> Result Node)
           (source_code path : string) : Result SourceFile.t :=
  let contents := source_code in
  tree <- parser_parse contents ;;
  let self := mk contents tree in
  let documentation := _get_module_docstring self in
  imports <- _get_imports self ;;
  top_level_attributes <- _get_top_level_attributes self ;;
  let top_level_functions := _get_module_functions self in
  entities <- _get_classes self ;;
  Ok (SourceFile.mk path documentation imports top_level_attributes
                    top_level_functions entities).

End Queries.

End Stractor.

(* ================================================================== *)
(** ** Sample inputs *)
(* ================================================================== *)

(** Small source texts with the tree the Python grammar gives them (named
    nodes, byte offsets into the text). *)

Module Examples.
Import Engine.




(** A function whose second statement is a bare string. *)
Definition later_fn_src : string :=
  PyStr.join_lines
    ["def f():";
     "    x = 1";
     "    'later'";
     ""].

Definition later_fn_tree : Node :=
  mkNode "module" 0 31
    [(None, mkNode "function_definition" 0 30
      [(Some "name", mkNode "identifier" 4 5 []);
       (Some "parameters", mkNode "parameters" 5 7 []);
       (Some "body", mkNode "block" 13 30
        [(None, mkNode "expression_statement" 13 18
          [(None, mkNode "assignment" 13 18
            [(Some "left", mkNode "identifier" 13 14 []);
             (Some "right", mkNode "integer" 17 18 [])])]);
         (None, mkNode "expression_statement" 23 30
          [(None, mkNode "string" 23 30
            [(None, mkNode "string_start" 23 24 []);
             (None, mkNode "string_content" 24 29 []);
             (None, mkNode "string_end" 29 30 [])])])])])].

Definition later_fn : Stractor.t := Stractor.mk later_fn_src later_fn_tree.

(** A class defined inside a class. *)
Definition nested_class_src : string :=
  PyStr.join_lines
    ["class A:";
     "    class B:";
     "        pass";
     ""].

Definition nested_class_tree : Node :=
  mkNode "module" 0 35
    [(None, mkNode "class_definition" 0 34
      [(Some "name", mkNode "identifier" 6 7 []);
       (Some "body", mkNode "block" 13 34
        [(None, mkNode "class_definition" 13 34
          [(Some "name", mkNode "identifier" 19 20 []);
           (Some "body", mkNode "block" 30 34
            [(None, mkNode "pass_statement" 30 34 [])])])])])].

Definition nested_class : Stractor.t := Stractor.mk nested_class_src nested_class_tree.

(** A method that defines an inner function. *)
Definition inner_fn_src : string :=
  PyStr.join_lines
    ["class A:";
     "    def m(self):";
     "        def inner():";
     "            pass";
     "        return inner";
     ""].

Definition inner_fn_tree : Node :=
  mkNode "module" 0 85
    [(None, mkNode "class_definition" 0 84
      [(Some "name", mkNode "identifier" 6 7 []);
       (Some "body", mkNode "block" 13 84
        [(None, mkNode "function_definition" 13 84
          [(Some "name", mkNode "identifier" 17 18 []);
           (Some "parameters", mkNode "parameters" 18 24
            [(None, mkNode "identifier" 19 23 [])]);
           (Some "body", mkNode "block" 34 84
            [(None, mkNode "function_definition" 34 63
              [(Some "name", mkNode "identifier" 38 43 []);
               (Some "parameters", mkNode "parameters" 43 45 []);
               (Some "body", mkNode "block" 59 63
                [(None, mkNode "pass_statement" 59 63 [])])]);
             (None, mkNode "return_statement" 72 84
              [(None, mkNode "identifier" 79 84 [])])])])])])].

Definition inner_fn : Stractor.t := Stractor.mk inner_fn_src inner_fn_tree.

(** A parameter whose default value is a call. *)
Definition call_default_src : string :=
  PyStr.join_lines
    ["def f(x=g()):";
     "    pass";
     ""].

Definition call_default_tree : Node :=
  mkNode "module" 0 23
    [(None, mkNode "function_definition" 0 22
      [(Some "name", mkNode "identifier" 4 5 []);
       (Some "parameters", mkNode "parameters" 5 12
        [(None, mkNode "default_parameter" 6 11
          [(Some "name", mkNode "identifier" 6 7 []);
           (Some "value", mkNode "call" 8 11
            [(Some "function", mkNode "identifier" 8 9 []);
             (Some "arguments", mkNode "argument_list" 9 11 [])])])]);
       (Some "body", mkNode "block" 18 22
        [(None, mkNode "pass_statement" 18 22 [])])])].

Definition call_default : Stractor.t := Stractor.mk call_default_src call_default_tree.

(** A module docstring whose content ends with a quote character. *)
Definition quoted_doc_src : string :=
  PyStr.join_lines
    [String PyStr.dquote ("He said 'hi'" ++ String PyStr.dquote "")%string;
     ""].

Definition quoted_doc_tree : Node :=
  mkNode "module" 0 15
    [(None, mkNode "expression_statement" 0 14
      [(None, mkNode "string" 0 14
        [(None, mkNode "string_start" 0 1 []);
         (None, mkNode "string_content" 1 13 []);
         (None, mkNode "string_end" 13 14 [])])])].

Definition quoted_doc : Stractor.t := Stractor.mk quoted_doc_src quoted_doc_tree.

(** A function whose body is a docstring that spans two lines. *)
Definition multiline_doc_src : string :=
  PyStr.join_lines
    ["def f():";
     "    '''a";
     "    b'''";
     ""].

Definition multiline_doc_tree : Node :=
  mkNode "module" 0 27
    [(None, mkNode "function_definition" 0 26
      [(Some "name", mkNode "identifier" 4 5 []);
       (Some "parameters", mkNode "parameters" 5 7 []);
       (Some "body", mkNode "block" 13 26
        [(None, mkNode "expression_statement" 13 26
          [(None, mkNode "string" 13 26
            [(None, mkNode "string_start" 13 16 []);
             (None, mkNode "string_content" 16 23 []);
             (None, mkNode "string_end" 23 26 [])])])])])].

Definition multiline_doc : Stractor.t := Stractor.mk multiline_doc_src multiline_doc_tree.




(** The empty source text. *)
Definition empty_tree : Node := mkNode "module" 0 0 [].

(** The scenario of tests/test_stractor.py, with single-quoted literals. *)
Definition outline_src : string :=
  PyStr.join_lines
    ["''' top level docs '''";
     "import ollama";
     "";
     "from stractor.util import logger";
     "from google import genai";
     "";
     "default_model = 'deepseek-r1:8b'";
     "";
     "def get_auto_client(model: str = default_model):";
     "    '''Get a client implementation based on the model name.'''";
     "    pass";
     "";
     "def get_client(model: str = default_model) -> LLM:";
     "    '''Get a client implementation based on the model name.'''";
     "";
     "    if model == 'default':";
     "        return LLMOllama()";
     "    return LLMGoogle(model)";
     "";
     "class LLM:";
     "    ''' Interface '''";
     "";
     "    def chat_stream(self, prompt, think=False) -> str:";
     "        ''' Hello chat_stream '''";
     "        pass";
     "";
     "    def chat(self, prompt, output=None):";
     "        print('lets chat')";
     ""].

Definition outline_tree : Node :=
  mkNode "module" 0 656
    [(None, mkNode "expression_statement" 0 22
      [(None, mkNode "string" 0 22
        [(None, mkNode "string_start" 0 3 []);
         (None, mkNode "string_content" 3 19 []);
         (None, mkNode "string_end" 19 22 [])])]);
     (None, mkNode "import_statement" 23 36
      [(Some "name", mkNode "dotted_name" 30 36
        [(None, mkNode "identifier" 30 36 [])])]);
     (None, mkNode "import_from_statement" 38 70
      [(Some "module_name", mkNode "dotted_name" 43 56
        [(None, mkNode "identifier" 43 51 []);
         (None, mkNode "identifier" 52 56 [])]);
       (Some "name", mkNode "dotted_name" 64 70
        [(None, mkNode "identifier" 64 70 [])])]);
     (None, mkNode "import_from_statement" 71 95
      [(Some "module_name", mkNode "dotted_name" 76 82
        [(None, mkNode "identifier" 76 82 [])]);
       (Some "name", mkNode "dotted_name" 90 95
        [(None, mkNode "identifier" 90 95 [])])]);
     (None, mkNode "expression_statement" 97 129
      [(None, mkNode "assignment" 97 129
        [(Some "left", mkNode "identifier" 97 110 []);
         (Some "right", mkNode "string" 113 129
          [(None, mkNode "string_start" 113 114 []);
           (None, mkNode "string_content" 114 128 []);
           (None, mkNode "string_end" 128 129 [])])])]);
     (None, mkNode "function_definition" 131 251
      [(Some "name", mkNode "identifier" 135 150 []);
       (Some "parameters", mkNode "parameters" 150 178
        [(None, mkNode "typed_default_parameter" 151 177
          [(Some "name", mkNode "identifier" 151 156 []);
           (Some "type", mkNode "type" 158 161
            [(None, mkNode "identifier" 158 161 [])]);
           (Some "value", mkNode "identifier" 164 177 [])])]);
       (Some "body", mkNode "block" 184 251
        [(None, mkNode "expression_statement" 184 242
          [(None, mkNode "string" 184 242
            [(None, mkNode "string_start" 184 187 []);
             (None, mkNode "string_content" 187 239 []);
             (None, mkNode "string_end" 239 242 [])])]);
         (None, mkNode "pass_statement" 247 251 [])])]);
     (None, mkNode "function_definition" 253 449
      [(Some "name", mkNode "identifier" 257 267 []);
       (Some "parameters", mkNode "parameters" 267 295
        [(None, mkNode "typed_default_parameter" 268 294
          [(Some "name", mkNode "identifier" 268 273 []);
           (Some "type", mkNode "type" 275 278
            [(None, mkNode "identifier" 275 278 [])]);
           (Some "value", mkNode "identifier" 281 294 [])])]);
       (Some "return_type", mkNode "type" 299 302
        [(None, mkNode "identifier" 299 302 [])]);
       (Some "body", mkNode "block" 308 449
        [(None, mkNode "expression_statement" 308 366
          [(None, mkNode "string" 308 366
            [(None, mkNode "string_start" 308 311 []);
             (None, mkNode "string_content" 311 363 []);
             (None, mkNode "string_end" 363 366 [])])]);
         (None, mkNode "if_statement" 372 421
          [(Some "condition", mkNode "comparison_operator" 375 393
            [(None, mkNode "identifier" 375 380 []);
             (None, mkNode "string" 384 393
              [(None, mkNode "string_start" 384 385 []);
               (None, mkNode "string_content" 385 392 []);
               (None, mkNode "string_end" 392 393 [])])]);
           (Some "consequence", mkNode "block" 403 421
            [(None, mkNode "return_statement" 403 421
              [(None, mkNode "call" 410 421
                [(Some "function", mkNode "identifier" 410 419 []);
                 (Some "arguments", mkNode "argument_list" 419 421 [])])])])]);
         (None, mkNode "return_statement" 426 449
          [(None, mkNode "call" 433 449
            [(Some "function", mkNode "identifier" 433 442 []);
             (Some "arguments", mkNode "argument_list" 442 449
              [(None, mkNode "identifier" 443 448 [])])])])])]);
     (None, mkNode "class_definition" 451 655
      [(Some "name", mkNode "identifier" 457 460 []);
       (Some "body", mkNode "block" 466 655
        [(None, mkNode "expression_statement" 466 483
          [(None, mkNode "string" 466 483
            [(None, mkNode "string_start" 466 469 []);
             (None, mkNode "string_content" 469 480 []);
             (None, mkNode "string_end" 480 483 [])])]);
         (None, mkNode "function_definition" 489 586
          [(Some "name", mkNode "identifier" 493 504 []);
           (Some "parameters", mkNode "parameters" 504 531
            [(None, mkNode "identifier" 505 509 []);
             (None, mkNode "identifier" 511 517 []);
             (None, mkNode "default_parameter" 519 530
              [(Some "name", mkNode "identifier" 519 524 []);
               (Some "value", mkNode "false" 525 530 [])])]);
           (Some "return_type", mkNode "type" 535 538
            [(None, mkNode "identifier" 535 538 [])]);
           (Some "body", mkNode "block" 548 586
            [(None, mkNode "expression_statement" 548 573
              [(None, mkNode "string" 548 573
                [(None, mkNode "string_start" 548 551 []);
                 (None, mkNode "string_content" 551 570 []);
                 (None, mkNode "string_end" 570 573 [])])]);
             (None, mkNode "pass_statement" 582 586 [])])]);
         (None, mkNode "function_definition" 592 655
          [(Some "name", mkNode "identifier" 596 600 []);
           (Some "parameters", mkNode "parameters" 600 627
            [(None, mkNode "identifier" 601 605 []);
             (None, mkNode "identifier" 607 613 []);
             (None, mkNode "default_parameter" 615 626
              [(Some "name", mkNode "identifier" 615 621 []);
               (Some "value", mkNode "none" 622 626 [])])]);
           (Some "body", mkNode "block" 637 655
            [(None, mkNode "expression_statement" 637 655
              [(None, mkNode "call" 637 655
                [(Some "function", mkNode "identifier" 637 642 []);
                 (Some "arguments", mkNode "argument_list" 642 655
                  [(None, mkNode "string" 643 654
                    [(None, mkNode "string_start" 643 644 []);
                     (None, mkNode "string_content" 644 653 []);
                     (None, mkNode "string_end" 653 654 [])])])])])])])])])].

Definition outline : Stractor.t := Stractor.mk outline_src outline_tree.

End Examples.

(* ================================================================== *)
(** ** Vocabulary of the specification *)
(* ================================================================== *)

(** Definitions that follow the wording of the specification, to be
    compared with the code, and the predicates the statements below use. *)

Module Spec.
Import Engine.

(** Every character of [s] belongs to [chars]. *)
Fixpoint all_in (chars s : string) : bool :=
  match s with
  | "" => true
  | String c s' => PyStr.mem_char c chars && all_in chars s'
  end.

(** The first (last) character of [s] belongs to [chars]. *)
Definition head_in (chars s : string) : bool :=
  match s with
  | "" => false
  | String c _ => PyStr.mem_char c chars
  end.

Fixpoint last_in (chars s : string) : bool :=
  match s with
  | "" => false
  | String c "" => PyStr.mem_char c chars
  | String _ s' => last_in chars s'
  end.

(** A line that [strip] empties. *)
Definition blank (line : string) : bool := negb (PyStr.truthy (PyStr.strip line)).

(** Section 4.2, as worded: exactly one layer of enclosing quote delimiters
    is removed, the triple forms first. *)
Definition unwrap (q s : string) : option string :=
  if PyStr.startswith s q && PyStr.endswith s q
     && (2 * String.length q <=? String.length s)%nat
  then Some (substring (String.length q)
                       (String.length s - 2 * String.length q) s)
  else None.

Definition triple (c : ascii) : string := String c (String c (String c "")).

Definition strip_one_quote_layer (s : string) : string :=
  match unwrap (triple PyStr.dquote) s with
  | Some r => r
  | None =>
      match unwrap (triple "'") s with
      | Some r => r
      | None =>
          match unwrap (String PyStr.dquote "") s with
          | Some r => r
          | None =>
              match unwrap "'" s with
              | Some r => r
              | None => s
              end
          end
      end
  end.


(** The line loop of the splitter, started with a given value of
    [skip_docstring]. *)
Definition filter_from (needle : string) (skip : bool) (lines : list string)
  : list string :=
  fst (fold_left (Stractor.filter_step needle) lines ([], skip)).


(** The children of a node, without their field names. *)
Definition child_nodes (n : Node) : list Node := map snd (children n).

Definition has_type (kind : string) (n : Node) : bool := String.eqb (type n) kind.

(** The nodes of the given kind that stand as an expression statement of
    their own directly in the scope [n], in source order. *)
Definition statements_of (kind : string) (n : Node) : list Node :=
  flat_map (fun c => if has_type "expression_statement" c
                     then filter (has_type kind) (child_nodes c)
                     else [])
           (child_nodes n).

(** The string literals among them. *)
Definition string_statements (n : Node) : list Node := statements_of "string" n.

(** The same for every scope of the given kind in the subtree of [root]. *)
Definition string_statements_in (kind : string) (root : Node) : list Node :=
  flat_map (fun n => if has_type kind n then string_statements n else [])
           (preorder root).


(** No field of a [Function] is an empty string. *)
Definition no_empty_field (f : Function.t) : Prop :=
  Function.parameters f <> Some ""
  /\ Function.return_type f <> Some ""
  /\ Function.documentation f <> Some ""
  /\ Function.body f <> Some "".

(** [subseq l1 l2]: [l1] is [l2] with some of its elements left out. *)
Inductive subseq {A : Type} : list A -> list A -> Prop :=
| subseq_nil : subseq [] []
| subseq_skip (x : A) (l1 l2 : list A) : subseq l1 l2 -> subseq l1 (x :: l2)
| subseq_take (x : A) (l1 l2 : list A) : subseq l1 l2 -> subseq (x :: l1) (x :: l2).

(** The nodes below a node, in document order. *)
Definition descendants (n : Node) : list Node := flat_map preorder (child_nodes n).

Fixpoint all_distinct (l : list Node) : bool :=
  match l with
  | [] => true
  | x :: l' => negb (existsb (Node_eqb x) l') && all_distinct l'
  end.

(** The shape of the tree of a source file: the root is a module, no node
    below it is one, and no two nodes of the tree are equal. *)
Definition module_tree (root : Node) : bool :=
  has_type "module" root
  && forallb (fun n => negb (has_type "module" n)) (descendants root)
  && all_distinct (preorder root).

(** An import statement, in either form. *)
Definition is_import (n : Node) : bool :=
  has_type "import_statement" n || has_type "import_from_statement" n.

Section Records.
Context {lang : Language}.

(** The [Function]s of the matches of the method pattern at one node. *)
Definition functions_at (self : Stractor.t) (n : Node) : list Function.t :=
  map (Stractor.function_of_match self) (matches_at Stractor.methods_scm n).

(** The [Function]s of the matches of the method pattern in a subtree. *)
Definition functions_in (self : Stractor.t) (n : Node) : list Function.t :=
  map (Stractor.function_of_match self) (query_matches Stractor.methods_scm n).

(** The [Entity] built from a match of the class pattern. *)
Definition entity_at (self : Stractor.t) (m : Match) : Entity.t :=
  let doc := Stractor._text self (Stractor._get_node m "doc") in
  Entity.mk (Stractor._text self (Stractor._get_node m "name"))
            "class"
            (PyStr.or_none
               (if PyStr.truthy doc then Stractor.clean_docstring doc else doc))
            (match Stractor._get_node m "class_node" with
             | Some class_node => functions_in self class_node
             | None => []
             end).

(** The entities of the matches of the class pattern in a subtree. *)
Definition entities_in (self : Stractor.t) (n : Node) : list Entity.t :=
  map (entity_at self) (query_matches Stractor.classes_scm n).

End Records.

(** The length of the longest match of a list. *)
Definition longest (ms : list Captures) : nat :=
  fold_right (fun m k => Nat.max (List.length m) k) 0 ms.


(** The texts of a list of nodes, the empty ones left out. *)
Definition texts (self : Stractor.t) (ns : list Node) : list string :=
  filter PyStr.truthy (map (fun n => Stractor._text self (Some n)) ns).



End Spec.

(* ================================================================== *)
(** ** More sample inputs *)
(* ================================================================== *)

Module MoreExamples.
Import Engine.

(** A module with an import statement and nothing else. *)
Definition import_only_src : string :=
  PyStr.join_lines
    ["import os";
     ""].

Definition import_only_tree : Node :=
  mkNode "module" 0 10
    [(None, mkNode "import_statement" 0 9
      [(Some "name", mkNode "dotted_name" 7 9
        [(None, mkNode "identifier" 7 9 [])])])].

Definition import_only : Stractor.t := Stractor.mk import_only_src import_only_tree.

(** A function whose body is a one-line docstring. *)
Definition doc_only_src : string :=
  PyStr.join_lines
    ["def f():";
     "    'doc'";
     ""].

Definition doc_only_tree : Node :=
  mkNode "module" 0 19
    [(None, mkNode "function_definition" 0 18
      [(Some "name", mkNode "identifier" 4 5 []);
       (Some "parameters", mkNode "parameters" 5 7 []);
       (Some "body", mkNode "block" 13 18
        [(None, mkNode "expression_statement" 13 18
          [(None, mkNode "string" 13 18
            [(None, mkNode "string_start" 13 14 []);
             (None, mkNode "string_content" 14 17 []);
             (None, mkNode "string_end" 17 18 [])])])])])].

Definition doc_only : Stractor.t := Stractor.mk doc_only_src doc_only_tree.

(** A module whose first statement is an empty string literal. *)
Definition empty_doc_src : string :=
  PyStr.join_lines
    ["''";
     "import os";
     ""].

Definition empty_doc_tree : Node :=
  mkNode "module" 0 13
    [(None, mkNode "expression_statement" 0 2
      [(None, mkNode "string" 0 2
        [(None, mkNode "string_start" 0 1 []);
         (None, mkNode "string_end" 1 2 [])])]);
     (None, mkNode "import_statement" 3 12
      [(Some "name", mkNode "dotted_name" 10 12
        [(None, mkNode "identifier" 10 12 [])])])].

Definition empty_doc : Stractor.t := Stractor.mk empty_doc_src empty_doc_tree.

(** A function whose body is a dictionary display. *)
Definition dict_body_src : string :=
  PyStr.join_lines
    ["def f():";
     "    {1: 2}";
     ""].

Definition dict_body_tree : Node :=
  mkNode "module" 0 20
    [(None, mkNode "function_definition" 0 19
      [(Some "name", mkNode "identifier" 4 5 []);
       (Some "parameters", mkNode "parameters" 5 7 []);
       (Some "body", mkNode "block" 13 19
        [(None, mkNode "expression_statement" 13 19
          [(None, mkNode "dictionary" 13 19
            [(None, mkNode "pair" 14 18
              [(Some "key", mkNode "integer" 14 15 []);
               (Some "value", mkNode "integer" 17 18 [])])])])])])].

Definition dict_body : Stractor.t := Stractor.mk dict_body_src dict_body_tree.

(** A function with a return type. *)
Definition annotated_src : string :=
  PyStr.join_lines
    ["def f() -> int:";
     "    pass";
     ""].

Definition annotated_tree : Node :=
  mkNode "module" 0 25
    [(None, mkNode "function_definition" 0 24
      [(Some "name", mkNode "identifier" 4 5 []);
       (Some "parameters", mkNode "parameters" 5 7 []);
       (Some "return_type", mkNode "type" 11 14
        [(None, mkNode "identifier" 11 14 [])]);
       (Some "body", mkNode "block" 20 24
        [(None, mkNode "pass_statement" 20 24 [])])])].

Definition annotated : Stractor.t := Stractor.mk annotated_src annotated_tree.

(** Nodes of the sample trees, by name. *)
Definition multiline_literal : Node :=
  mkNode "string" 13 26
         [(None, mkNode "string_start" 13 16 []);
          (None, mkNode "string_content" 16 23 []);
          (None, mkNode "string_end" 23 26 [])].

Definition multiline_block : Node :=
  mkNode "block" 13 26
         [(None, mkNode "expression_statement" 13 26 [(None, multiline_literal)])].

Definition doc_only_literal : Node :=
  mkNode "string" 13 18
         [(None, mkNode "string_start" 13 14 []);
          (None, mkNode "string_content" 14 17 []);
          (None, mkNode "string_end" 17 18 [])].

Definition doc_only_block : Node :=
  mkNode "block" 13 18
         [(None, mkNode "expression_statement" 13 18 [(None, doc_only_literal)])].

Definition dict_block : Node :=
  mkNode "block" 13 19
         [(None,
           mkNode "expression_statement" 13 19
                  [(None,
                    mkNode "dictionary" 13 19
                           [(None,
                             mkNode "pair" 14 18
                                    [(Some "key", mkNode "integer" 14 15 []);
                                     (Some "value", mkNode "integer" 17 18 [])])])])].

Definition empty_literal : Node :=
  mkNode "string" 0 2
         [(None, mkNode "string_start" 0 1 []);
          (None, mkNode "string_end" 1 2 [])].

(** The match of the function pattern at the function of [doc_only] and at
    the function of [dict_body]. *)
Definition doc_only_match : Match :=
  (0, [("name", mkNode "identifier" 4 5 []);
       ("params", mkNode "parameters" 5 7 []);
       ("body", doc_only_block)]).

Definition dict_body_match : Match :=
  (0, [("name", mkNode "identifier" 4 5 []);
       ("params", mkNode "parameters" 5 7 []);
       ("body", dict_block)]).

(** The body of the function of [annotated], and the match of the function
    pattern there. *)
Definition annotated_block : Node :=
  mkNode "block" 20 24 [(None, mkNode "pass_statement" 20 24 [])].

Definition annotated_match : Match :=
  (0, [("name", mkNode "identifier" 4 5 []);
       ("params", mkNode "parameters" 5 7 []);
       ("return_type", mkNode "type" 11 14 [(None, mkNode "identifier" 11 14 [])]);
       ("body", annotated_block)]).

(** The match of the function pattern at the function of [call_default]. *)
Definition call_default_match : Match :=
  (0, [("name", mkNode "identifier" 4 5 []);
       ("params",
        mkNode "parameters" 5 12
               [(None,
                 mkNode "default_parameter" 6 11
                        [(Some "name", mkNode "identifier" 6 7 []);
                         (Some "value",
                          mkNode "call" 8 11
                                 [(Some "function", mkNode "identifier" 8 9 []);
                                  (Some "arguments",
                                   mkNode "argument_list" 9 11 [])])])]);
       ("body", mkNode "block" 18 22 [(None, mkNode "pass_statement" 18 22 [])])]).











End MoreExamples.

(* ================================================================== *)
(** ** More vocabulary *)
(* ================================================================== *)

Module MoreSpec.
Import Engine Spec.

(** [piece] is a contiguous part of [whole]. *)
Definition slice_of (piece whole : string) : Prop :=
  exists pre post, whole = (pre ++ piece ++ post)%string.

(** The same for an optional field: nothing to say of [None]. *)
Definition opt_slice_of (piece : option string) (whole : string) : Prop :=
  match piece with
  | Some p => slice_of p whole
  | None => True
  end.

(** A function definition as the grammar builds it, without a return type:
    a name, a parameter list and a body. *)
Definition plain_function (c x p b : Node) : Prop :=
  type c = "function_definition"
  /\ children c = [(Some "name", x); (Some "parameters", p); (Some "body", b)]
  /\ type x = "identifier"
  /\ type p = "parameters"
  /\ type b = "block".

(** A function definition with a return type. *)
Definition annotated_function (c x p r b : Node) : Prop :=
  type c = "function_definition"
  /\ children c = [(Some "name", x); (Some "parameters", p);
                   (Some "return_type", r); (Some "body", b)]
  /\ type x = "identifier"
  /\ type p = "parameters"
  /\ type r = "type"
  /\ type b = "block".

(** The text starts with a whitespace character; [s2] and [s3] recognise
    the two- and three-byte ones. *)
Definition leading_space (s2 : ascii -> ascii -> bool)
           (s3 : ascii -> ascii -> ascii -> bool) (s : string) : bool :=
  match s with
  | "" => false
  | String a "" => PyStr.space1 a
  | String a (String b "") => PyStr.space1 a || s2 a b
  | String a (String b (String c _)) => PyStr.space1 a || s2 a b || s3 a b c
  end.

Definition starts_with_space (s : string) : bool :=
  leading_space PyStr.space2 PyStr.space3 s.

Definition ends_with_space (s : string) : bool :=
  leading_space (fun a b => PyStr.space2 b a) (fun a b c => PyStr.space3 c b a)
                (PyStr.rev s).

(** No whitespace at either end. *)
Definition trimmed (s : string) : Prop :=
  starts_with_space s = false /\ ends_with_space s = false.

Definition opt_trimmed (s : option string) : Prop :=
  match s with
  | Some t => trimmed t
  | None => True
  end.

End MoreSpec.

(* ================================================================== *)
(** ** The order in which the engine delivers *)
(* ================================================================== *)

(** The lists [query_matches] and [query_captures] fix which matches and
    which nodes a query has; the order in which an engine hands them over
    is its own.  What is assumed of it is stated here, for the queries of
    core.py. *)

Module Order.
Import Engine Stractor.

(** [a] ends where [b] starts, or earlier, and [b] is not empty. *)
Definition before (a b : Node) : bool :=
  ((end_byte a <=? start_byte b) && (start_byte b <? end_byte b))%nat.

(** A match lies before another when each node it binds is before each
    node the other binds. *)
Definition lies_before (m1 m2 : Match) : bool :=
  match snd m1, snd m2 with
  | _ :: _, _ :: _ =>
      forallb (fun x => forallb (fun y => before (snd x) (snd y)) (snd m2))
              (snd m1)
  | _, _ => false
  end.

(** No match of the list comes after a match that it lies before. *)
Fixpoint in_source_order (ms : list Match) : bool :=
  match ms with
  | [] => true
  | m :: ms' =>
      forallb (fun m' => negb (lies_before m' m)) ms' && in_source_order ms'
  end.


(** [s] is one of the nodes, and it is before every other. *)
Definition comes_first (s : Node) (nodes : list Node) : bool :=
  existsb (Node_eqb s) nodes
  && forallb (fun s' => Node_eqb s' s || before s s') nodes.

(** Two capture dictionaries with the same keys and, under each key, the
    same nodes. *)
Definition same_nodes (d d0 : list (string * list Node)) : Prop :=
  forall name,
    match getitem d name, getitem d0 name with
    | Ok ns, Ok ns0 => Permutation ns ns0
    | Raise _, Raise _ => True
    | _, _ => False
    end.

(** The queries core.py runs with [query.matches], and those it runs with
    [query.captures]. *)
Definition match_queries : list Pattern :=
  [module_docstring_scm; functions_scm; methods_scm; classes_scm;
   block_docstring_scm].

Definition capture_queries : list Pattern := [imports_scm; attributes_scm].

(** Modelled from the spec: the contract of the query facility (section 6),
    for the queries of core.py.  [query.matches] returns each match once,
    "preserving the source order of matches": a match that lies before
    another is delivered before it, and nothing is assumed of two matches
    of which neither lies before the other (one construct inside another).
    [query.captures] returns a dictionary with the captured nodes under
    each name; section 6 does not speak of the order of these nodes, and
    none is assumed. *)
Definition conforms (lang : Language) : Prop :=
  (forall p root,
      In p match_queries ->
      Permutation (matches p root) (query_matches p root)
      /\ in_source_order (matches p root) = true)
  /\ (forall p root,
         In p capture_queries ->
         same_nodes (captures p root) (query_captures p root)).

(** [l] holds the image of every match, once, in an order the contract
    allows. *)
Definition delivered {A : Type} (l : list A) (f : Match -> A)
           (canon : list Match) : Prop :=
  exists ms,
    Permutation ms canon /\ in_source_order ms = true /\ l = map f ms.

(** The byte at which the last node bound by a match ends. *)
Definition reach (m : Match) : nat :=
  fold_right (fun c k => Nat.max (end_byte (snd c)) k) 0 (snd m).

Fixpoint insert_by_reach (m : Match) (ms : list Match) : list Match :=
  match ms with
  | [] => [m]
  | m' :: ms' =>
      if (reach m <=? reach m')%nat then m :: ms
      else m' :: insert_by_reach m ms'
  end.

Definition sort_by_reach (ms : list Match) : list Match :=
  fold_right insert_by_reach [] ms.

(** An engine within the contract that is not [document_order]: matches
    come in the order in which their last node ends, and the nodes of a
    capture dictionary from last to first. *)
Definition end_order : Language :=
  {| matches := fun p root => sort_by_reach (query_matches p root);
     captures :=
       fun p root =>
         map (fun kv => (fst kv, rev (snd kv))) (query_captures p root) |}.

End Order.

(* ================================================================== *)
(** ** Facts about the string operations *)
(* ================================================================== *)

Module PyStrFacts.
Import PyStr Spec.

Lemma or_none_not_empty (s : string) : or_none s <> Some "".
Proof.
  destruct s as [| c s]; simpl; discriminate.
Qed.

Lemma or_none_empty : or_none "" = None.
Proof. reflexivity. Qed.

Lemma all_in_app (chars a b : string) :
  all_in chars (a ++ b) = all_in chars a && all_in chars b.
Proof.
  induction a as [| c a IH]; simpl.
  - reflexivity.
  - rewrite IH. now rewrite andb_assoc.
Qed.

(** What [lstrip(chars)] removes is a run of characters of [chars], and
    what it leaves does not start with one. *)
Lemma lstrip_chars_split (chars s : string) :
  exists l,
    s = (l ++ lstrip_chars chars s)%string
    /\ all_in chars l = true
    /\ head_in chars (lstrip_chars chars s) = false.
Proof.
  induction s as [| c s IH].
  - exists "". now simpl.
  - simpl. destruct (mem_char c chars) eqn:Hc.
    + destruct IH as (l & Hs & Hl & Hh).
      exists (String c l). simpl. rewrite Hc, Hl.
      repeat split; [ now f_equal | assumption ].
    + exists "". simpl. now rewrite Hc.
Qed.

(** The same on the right. *)
Lemma rstrip_chars_split (chars s : string) :
  exists r,
    s = (rstrip_chars chars s ++ r)%string
    /\ all_in chars r = true
    /\ last_in chars (rstrip_chars chars s) = false.
Proof.
  induction s as [| c s IH].
  - exists "". now simpl.
  - destruct IH as (r & Hs & Hr & Hlast). simpl.
    destruct (rstrip_chars chars s) as [| d t] eqn:Hrs.
    + simpl in Hs. subst r.
      destruct (mem_char c chars) eqn:Hc.
      * exists (String c s). simpl. now rewrite Hc, Hr.
      * exists s. simpl. now rewrite Hc.
    + exists r. repeat split; try assumption.
      simpl. now f_equal.
Qed.

Lemma rstrip_chars_head (chars s : string) :
  head_in chars s = false -> head_in chars (rstrip_chars chars s) = false.
Proof.
  destruct s as [| c s]; simpl; [ easy |].
  intros Hc. destruct (rstrip_chars chars s); simpl; now rewrite ?Hc.
Qed.

(** [strip(chars)] cuts a run of [chars] off each end and keeps the middle
    as it is. *)
Lemma strip_chars_split (chars s : string) :
  exists l r,
    s = (l ++ strip_chars chars s ++ r)%string
    /\ all_in chars l = true
    /\ all_in chars r = true
    /\ head_in chars (strip_chars chars s) = false
    /\ last_in chars (strip_chars chars s) = false.
Proof.
  unfold strip_chars.
  destruct (lstrip_chars_split chars s) as (l & Hs & Hl & Hh).
  destruct (rstrip_chars_split chars (lstrip_chars chars s)) as (r & Hm & Hr & Hlast).
  exists l, r. repeat split; try assumption.
  - rewrite <- Hm. exact Hs.
  - now apply rstrip_chars_head.
Qed.

End PyStrFacts.

(* ================================================================== *)
(** ** Facts about the line loop of the splitter *)
(* ================================================================== *)

Module SplitterFacts.
Import Spec.
Import Stractor.

(** The lines already kept are never touched again. *)
Lemma fold_filter_step_acc (needle : string) (lines : list string) :
  forall acc skip,
    fold_left (filter_step needle) lines (acc, skip)
    = (acc ++ filter_from needle skip lines,
       snd (fold_left (filter_step needle) lines ([], skip))).
Proof.
  unfold filter_from.
  induction lines as [| line lines IH]; intros acc skip; simpl.
  - now rewrite app_nil_r.
  - destruct (PyStr.contains needle line && negb skip).
    + apply IH.
    + destruct (negb skip || PyStr.truthy (PyStr.strip line)).
      * rewrite (IH (acc ++ [line])), (IH [line]). simpl.
        now rewrite <- app_assoc.
      * apply IH.
Qed.

Lemma filter_lines_from (needle : string) (lines : list string) :
  filter_lines needle lines = filter_from needle false lines.
Proof. reflexivity. Qed.

Lemma filter_from_nil (needle : string) (skip : bool) :
  filter_from needle skip [] = [].
Proof. reflexivity. Qed.

(** A line with the literal, met while the flag is down, is dropped and
    raises the flag. *)
Lemma filter_from_hit (needle line : string) (lines : list string) :
  PyStr.contains needle line = true ->
  filter_from needle false (line :: lines) = filter_from needle true lines.
Proof.
  intros H. unfold filter_from. simpl. now rewrite H.
Qed.

(** A line without the literal, met while the flag is down, is kept. *)
Lemma filter_from_miss (needle line : string) (lines : list string) :
  PyStr.contains needle line = false ->
  filter_from needle false (line :: lines)
  = line :: filter_from needle false lines.
Proof.
  intros H. unfold filter_from at 1. simpl. rewrite H. simpl.
  now rewrite fold_filter_step_acc.
Qed.

(** While the flag is up a blank line is dropped and the flag stays up. *)
Lemma filter_from_blank (needle line : string) (lines : list string) :
  blank line = true ->
  filter_from needle true (line :: lines) = filter_from needle true lines.
Proof.
  unfold blank. intros H. apply negb_true_iff in H.
  unfold filter_from. simpl. rewrite H, andb_false_r. reflexivity.
Qed.


Lemma filter_from_misses (needle : string) (pre lines : list string) :
  Forall (fun l => PyStr.contains needle l = false) pre ->
  filter_from needle false (pre ++ lines)
  = pre ++ filter_from needle false lines.
Proof.
  induction 1 as [| l pre Hl _ IH]; simpl.
  - reflexivity.
  - rewrite filter_from_miss by assumption. now rewrite IH.
Qed.

Lemma filter_from_blanks (needle : string) (blanks lines : list string) :
  Forall (fun l => blank l = true) blanks ->
  filter_from needle true (blanks ++ lines) = filter_from needle true lines.
Proof.
  induction 1 as [| l blanks Hl _ IH]; simpl.
  - reflexivity.
  - rewrite filter_from_blank by assumption. exact IH.
Qed.

End SplitterFacts.

(* ================================================================== *)
(** ** Facts about the query engine *)
(* ================================================================== *)

Module EngineFacts.
Import Engine Spec.

Lemma match_at_eq (kind : string) (capture : option string)
      (subs : list (option string * bool * Pattern)) (n : Node) :
  match_at (PNode kind capture subs) n
  = if String.eqb (type n) kind
    then map (fun m => self_capture capture n ++ m) (match_subs subs (children n))
    else [].
Proof.
  reflexivity.
Qed.

Lemma flat_map_splits {A B : Type} (g : A -> list B) (l : list A) :
  flat_map (fun s => g (fst s)) (splits l) = flat_map g l.
Proof.
  induction l as [| x l IH]; simpl; [ reflexivity | now rewrite IH ].
Qed.

Lemma in_splits {A : Type} (x : A) (after l : list A) :
  In (x, after) (splits l) -> exists before, l = before ++ x :: after.
Proof.
  induction l as [| y l IH]; simpl; [ easy |].
  intros [H | H].
  - inversion H; subst. now exists [].
  - destruct (IH H) as [before ->]. now exists (y :: before).
Qed.

Lemma splits_in {A : Type} (x : A) (before after : list A) :
  In (x, after) (splits (before ++ x :: after)).
Proof.
  induction before as [| y before IH]; simpl; [ now left | now right ].
Qed.

(** A match that is not shorter than any other is kept. *)
Lemma maximal_same_length (k : nat) (ms : list Captures) :
  Forall (fun m => List.length m = k) ms -> maximal ms = ms.
Proof.
  intros H. unfold maximal.
  rewrite forallb_filter_id; [ reflexivity |].
  apply forallb_forall. intros m Hm.
  apply negb_true_iff. apply not_true_is_false. intros Hex.
  apply existsb_exists in Hex. destruct Hex as (m' & Hm' & Hsub).
  unfold subsumes in Hsub. apply andb_prop in Hsub. destruct Hsub as [Hlt _].
  rewrite Forall_forall in H.
  rewrite (H m Hm), (H m' Hm') in Hlt.
  apply Nat.ltb_lt in Hlt. lia.
Qed.

Lemma maximal_incl (ms : list Captures) (m : Captures) :
  In m (maximal ms) -> In m ms.
Proof.
  unfold maximal. intros H. apply filter_In in H. tauto.
Qed.


Lemma flat_map_singleton_app_nil (l : list Captures) :
  flat_map (fun m1 => map (fun m2 => m1 ++ m2) [[]]) l = l.
Proof.
  induction l as [| m l IH]; [ reflexivity |].
  simpl. rewrite app_nil_r. apply f_equal. exact IH.
Qed.

(** One required sub-pattern without a field name: the matches of the
    sub-pattern at each child, from left to right. *)
Lemma match_subs_single (q : Pattern) (cs : list (option string * Node)) :
  match_subs [child None q] cs = flat_map (fun fc => match_at q (snd fc)) cs.
Proof.
  unfold child. simpl match_subs. rewrite app_nil_r.
  rewrite <- (flat_map_splits (fun fc => match_at q (snd fc))).
  apply flat_map_ext. intros [[f c] after]. simpl.
  apply flat_map_singleton_app_nil.
Qed.

Lemma flat_map_snd {A B C : Type} (g : B -> list C) (l : list (A * B)) :
  flat_map (fun x => g (snd x)) l = flat_map g (map snd l).
Proof.
  induction l as [| x l IH]; simpl; [ reflexivity | now rewrite IH ].
Qed.

Lemma flat_map_if_singleton {A B : Type} (test : A -> bool) (g : A -> B)
      (l : list A) :
  flat_map (fun x => if test x then [g x] else []) l = map g (filter test l).
Proof.
  induction l as [| x l IH]; simpl; [ reflexivity |].
  destruct (test x); simpl; now rewrite IH.
Qed.

Lemma map_flat_map_distr {A B C : Type} (g : B -> C) (f : A -> list B)
      (l : list A) :
  map g (flat_map f l) = flat_map (fun x => map g (f x)) l.
Proof.
  induction l as [| x l IH]; simpl; [ reflexivity |].
  now rewrite map_app, IH.
Qed.

Lemma match_at_leaf (kind name : string) (n : Node) :
  match_at (PNode kind (Some name) []) n
  = if has_type kind n then [[(name, n)]] else [].
Proof.
  rewrite match_at_eq. unfold has_type.
  destruct (String.eqb (type n) kind); reflexivity.
Qed.

(** The pattern [(scope (expression_statement (kind) @name))], the shape of
    the docstring queries and of the attribute query. *)
Lemma match_at_statement (kind name : string) (c : Node) :
  match_at (PNode "expression_statement" None
                  [child None (PNode kind (Some name) [])]) c
  = if has_type "expression_statement" c
    then map (fun s => [(name, s)]) (filter (has_type kind) (child_nodes c))
    else [].
Proof.
  rewrite match_at_eq. unfold has_type.
  destruct (String.eqb (type c) "expression_statement"); [| reflexivity ].
  rewrite match_subs_single. simpl self_capture. rewrite map_id.
  rewrite (flat_map_snd (match_at (PNode kind (Some name) []))).
  fold (child_nodes c).
  rewrite <- flat_map_if_singleton.
  apply flat_map_ext. intros s. apply match_at_leaf.
Qed.

(** Its matches at a node: one for each such statement of the scope, in
    source order. *)
Lemma match_at_scope_statement (scope kind name : string) (n : Node) :
  match_at (PNode scope None
                  [child None
                         (PNode "expression_statement" None
                                [child None (PNode kind (Some name) [])])]) n
  = if has_type scope n
    then map (fun s => [(name, s)]) (statements_of kind n)
    else [].
Proof.
  rewrite match_at_eq. unfold has_type.
  destruct (String.eqb (type n) scope); [| reflexivity ].
  rewrite match_subs_single. simpl self_capture. rewrite map_id.
  rewrite (flat_map_snd
             (match_at (PNode "expression_statement" None
                              [child None (PNode kind (Some name) [])]))).
  unfold statements_of. fold (child_nodes n).
  rewrite map_flat_map_distr.
  apply flat_map_ext. intros c. rewrite match_at_statement.
  destruct (has_type "expression_statement" c); reflexivity.
Qed.

Lemma maximal_map_singleton {A : Type} (g : A -> string * Node) (l : list A) :
  maximal (map (fun x => [g x]) l) = map (fun x => [g x]) l.
Proof.
  apply (maximal_same_length 1).
  apply Forall_forall. intros m Hm. apply in_map_iff in Hm.
  destruct Hm as (x & <- & _). reflexivity.
Qed.

Lemma maximal_nil : maximal [] = [].
Proof. reflexivity. Qed.

Lemma matches_at_scope_statement (scope kind name : string) (n : Node) :
  matches_at (PNode scope None
                    [child None
                           (PNode "expression_statement" None
                                  [child None (PNode kind (Some name) [])])]) n
  = if has_type scope n
    then map (fun s => (0, [(name, s)])) (statements_of kind n)
    else [].
Proof.
  unfold matches_at. rewrite match_at_scope_statement.
  destruct (has_type scope n); [| reflexivity ].
  rewrite maximal_map_singleton. now rewrite map_map.
Qed.

(** The docstring queries: one match for each string statement of every
    scope of the kind, listed scope by scope. *)
Lemma query_matches_docstring (scope : string) (root : Node) :
  query_matches (PNode scope None [child None (Stractor.string_statement None (Some "doc"))]) root
  = map (fun s => (0, [("doc", s)])) (string_statements_in scope root).
Proof.
  unfold query_matches, string_statements_in, Stractor.string_statement.
  rewrite map_flat_map_distr.
  apply flat_map_ext. intros n. rewrite matches_at_scope_statement.
  unfold string_statements.
  destruct (has_type scope n); reflexivity.
Qed.

End EngineFacts.

(* ================================================================== *)
(** ** More facts about the query engine: identity, longest matches *)
(* ================================================================== *)

Module MatchFacts.
Import Engine Spec.
Import EngineFacts.

(** Induction on a tree, with the property available for every child. *)
Lemma Node_children_ind (P : Node -> Prop) :
  (forall ty sb eb cs,
      Forall (fun fc => P (snd fc)) cs -> P (mkNode ty sb eb cs)) ->
  forall n, P n.
Proof.
  intros step.
  fix IH 1. intros [ty sb eb cs]. apply step.
  induction cs as [| [f c] cs IHcs]; constructor.
  - apply IH.
  - exact IHcs.
Qed.


Lemma option_string_eqb_eq (a b : option string) :
  option_string_eqb a b = true <-> a = b.
Proof.
  destruct a as [x |], b as [y |]; simpl; split; intros H;
    try discriminate; try reflexivity.
  - apply String.eqb_eq in H. now subst.
  - inversion H. apply String.eqb_refl.
Qed.

(** [Node_eqb] decides equality of nodes. *)
Lemma Node_eqb_eq (a : Node) : forall b, Node_eqb a b = true <-> a = b.
Proof.
  induction a as [ty sb eb cs IH] using Node_children_ind.
  intros [ty' sb' eb' cs']. simpl.
  rewrite !andb_true_iff, String.eqb_eq, !Nat.eqb_eq.
  match goal with
  | |- context [ ?f cs cs' ] =>
      assert (Hcs : f cs cs' = true <-> cs = cs')
  end.
  { clear ty sb eb ty' sb' eb'. revert cs'.
    induction IH as [| [f x] cs Hx _ IHcs]; intros [| [g y] cs'];
      try (split; [ discriminate | discriminate ]).
    - tauto.
    - simpl in Hx.
      rewrite !andb_true_iff, option_string_eqb_eq, (Hx y), IHcs.
      split.
      + intros [[-> ->] ->]. reflexivity.
      + intros H. inversion H. tauto. }
  rewrite Hcs. split.
  - intros [[[-> ->] ->] ->]. reflexivity.
  - intros H. inversion H. tauto.
Qed.

Lemma Node_eqb_refl (a : Node) : Node_eqb a a = true.
Proof. now apply Node_eqb_eq. Qed.

Lemma capture_eqb_eq (a b : string * Node) : capture_eqb a b = true <-> a = b.
Proof.
  destruct a as [k x], b as [k' y]. unfold capture_eqb. simpl.
  rewrite andb_true_iff, String.eqb_eq, Node_eqb_eq.
  split; [ intros [-> ->]; reflexivity | intros H; inversion H; tauto ].
Qed.

Lemma existsb_capture_eqb (x : string * Node) (m : Captures) :
  existsb (capture_eqb x) m = true <-> In x m.
Proof.
  rewrite existsb_exists. split.
  - intros (y & Hy & He). apply capture_eqb_eq in He. now subst.
  - intros H. exists x. split; [ assumption | now apply capture_eqb_eq ].
Qed.

(** [subsumes big small]: [small] is strictly shorter and each of its
    captures is a capture of [big]. *)
Lemma subsumes_spec (big small : Captures) :
  subsumes big small = true
  <-> List.length small < List.length big /\ incl small big.
Proof.
  unfold subsumes. rewrite andb_true_iff, Nat.ltb_lt, forallb_forall.
  split; intros [Hlt Hin]; split; try assumption.
  - intros x Hx. now apply existsb_capture_eqb, Hin.
  - intros x Hx. now apply existsb_capture_eqb, Hin.
Qed.


Lemma in_flat_map_preorder (x : Node) (cs : list (option string * Node)) :
  In x (flat_map (fun fc => match fc with (_, c) => preorder c end) cs)
  <-> exists fc, In fc cs /\ In x (preorder (snd fc)).
Proof.
  rewrite in_flat_map. split; intros ([f c] & H1 & H2); exists (f, c); auto.
Qed.

Lemma preorder_eq (n : Node) : preorder n = n :: descendants n.
Proof.
  destruct n as [ty sb eb cs]. unfold descendants, child_nodes. simpl.
  f_equal. induction cs as [| [f c] cs IH]; simpl; [ reflexivity |].
  now rewrite IH.
Qed.



(** How a match of a list of sub-patterns is made. *)
Lemma in_match_subs_cons (field : option string) (optional : bool)
      (q : Pattern) (subs : list (option string * bool * Pattern))
      (cs : list (option string * Node)) (m : Captures) :
  In m (match_subs ((field, optional, q) :: subs) cs)
  <-> (exists f c after m1 m2,
          In ((f, c), after) (splits cs)
          /\ field_ok field f = true
          /\ In m1 (match_at q c)
          /\ In m2 (match_subs subs after)
          /\ m = m1 ++ m2)
      \/ (optional = true /\ In m (match_subs subs cs)).
Proof.
  cbn [match_subs]. rewrite in_app_iff, in_flat_map. split.
  - intros [([[f c] after] & Hs & Hm) | Hm].
    + left. destruct (field_ok field f) eqn:Hf; [| contradiction ].
      apply in_flat_map in Hm. destruct Hm as (m1 & Hm1 & Hm).
      apply in_map_iff in Hm. destruct Hm as (m2 & <- & Hm2).
      exists f, c, after, m1, m2. tauto.
    + right. destruct optional; [ tauto | contradiction ].
  - intros [(f & c & after & m1 & m2 & Hs & Hf & Hm1 & Hm2 & ->) | [-> Hm]].
    + left. exists ((f, c), after). split; [ assumption |].
      rewrite Hf. apply in_flat_map. exists m1. split; [ assumption |].
      apply in_map_iff. eauto.
    + now right.
Qed.

Lemma in_splits_in {A : Type} (x : A) (after l : list A) :
  In (x, after) (splits l) -> In x l /\ incl after l.
Proof.
  intros H. destruct (in_splits _ _ _ H) as [before ->]. split.
  - apply in_or_app. right. now left.
  - intros y Hy. apply in_or_app. right. now right.
Qed.



(** *** The longest matches *)

Lemma length_le_longest (ms : list Captures) (m : Captures) :
  In m ms -> List.length m <= longest ms.
Proof.
  induction ms as [| m0 ms IH]; simpl; [ easy |].
  intros [-> | H]; [ lia |]. specialize (IH H). lia.
Qed.

(** Every match is part of a match that is reported. *)
Lemma maximal_covers (ms : list Captures) (m : Captures) :
  In m ms -> exists m', In m' (maximal ms) /\ incl m m'.
Proof.
  remember (longest ms - List.length m) as gap eqn:Hgap.
  revert m Hgap.
  induction gap as [gap IH] using lt_wf_ind. intros m Hgap Hm.
  destruct (existsb (fun m' => subsumes m' m) ms) eqn:Hsub.
  - apply existsb_exists in Hsub. destruct Hsub as (m1 & Hm1 & Hs).
    apply subsumes_spec in Hs. destruct Hs as [Hlt Hincl].
    pose proof (length_le_longest ms m1 Hm1) as Hle.
    destruct (IH (longest ms - List.length m1)) with (m := m1)
      as (m' & Hm' & Hincl'); try assumption; try reflexivity.
    { lia. }
    exists m'. split; [ assumption |].
    intros x Hx. apply Hincl', Hincl, Hx.
  - exists m. split; [| apply incl_refl ].
    unfold maximal. apply filter_In. split; [ assumption |].
    now rewrite Hsub.
Qed.





(** *** Distinct nodes *)

Lemma all_distinct_NoDup (l : list Node) : all_distinct l = true -> NoDup l.
Proof.
  induction l as [| x l IH]; simpl; [ constructor |].
  intros H. apply andb_prop in H. destruct H as [Hx Hl].
  constructor; [| now apply IH ].
  intros Hin. apply negb_true_iff in Hx.
  assert (existsb (Node_eqb x) l = true); [| congruence ].
  apply existsb_exists. exists x. split; [ assumption | apply Node_eqb_refl ].
Qed.




(** *** Sub-sequences *)

Lemma subseq_refl {A : Type} (l : list A) : subseq l l.
Proof. induction l; [ constructor | now apply subseq_take ]. Qed.

Lemma subseq_nil_l {A : Type} (l : list A) : subseq [] l.
Proof. induction l; [ constructor | now apply subseq_skip ]. Qed.

Lemma subseq_in {A : Type} (l1 l2 : list A) (x : A) :
  subseq l1 l2 -> In x l1 -> In x l2.
Proof.
  induction 1 as [| y l1 l2 _ IH | y l1 l2 _ IH]; simpl; [ easy | auto |].
  intros [-> | H]; auto.
Qed.

Lemma subseq_app {A : Type} (a1 a2 b1 b2 : list A) :
  subseq a1 a2 -> subseq b1 b2 -> subseq (a1 ++ b1) (a2 ++ b2).
Proof.
  induction 1 as [| x a1 a2 _ IH | x a1 a2 _ IH]; simpl; intros Hb.
  - assumption.
  - apply subseq_skip. now apply IH.
  - apply subseq_take. now apply IH.
Qed.

Lemma subseq_filter {A : Type} (f : A -> bool) (l : list A) :
  subseq (filter f l) l.
Proof.
  induction l as [| x l IH]; simpl; [ constructor |].
  destruct (f x); [ now apply subseq_take | now apply subseq_skip ].
Qed.

Lemma subseq_trans {A : Type} (l1 l2 l3 : list A) :
  subseq l1 l2 -> subseq l2 l3 -> subseq l1 l3.
Proof.
  intros H12 H23. revert l1 H12.
  induction H23 as [| x l2 l3 _ IH | x l2 l3 _ IH]; intros l1 H12.
  - assumption.
  - apply subseq_skip. now apply IH.
  - inversion H12; subst.
    + apply subseq_skip. now apply IH.
    + apply subseq_take. now apply IH.
Qed.

Lemma subseq_flat_map {X A : Type} (f g : X -> list A) (l : list X) :
  (forall x, In x l -> subseq (f x) (g x)) ->
  subseq (flat_map f l) (flat_map g l).
Proof.
  induction l as [| x l IH]; simpl; intros H; [ constructor |].
  apply subseq_app; [ apply H; now left |].
  apply IH. intros y Hy. apply H. now right.
Qed.

(** In a list without repetition, filtering by membership in a
    sub-sequence gives the sub-sequence. *)
Lemma filter_subseq {A : Type} (P : A -> bool) (L l : list A) :
  subseq L l ->
  NoDup l ->
  (forall x, In x l -> (P x = true <-> In x L)) ->
  filter P l = L.
Proof.
  induction 1 as [| x L l Hsub IH | x L l Hsub IH]; intros Hnd HP.
  - reflexivity.
  - inversion Hnd as [| ? ? Hx Hl]; subst. simpl.
    destruct (P x) eqn:HPx.
    + exfalso. apply Hx. apply (subseq_in L l x Hsub).
      apply HP; [ now left | assumption ].
    + apply IH; [ assumption |].
      intros y Hy. apply HP. now right.
  - inversion Hnd as [| ? ? Hx Hl]; subst. simpl.
    assert (HPx : P x = true) by (apply HP; now left).
    rewrite HPx. f_equal. apply IH; [ assumption |].
    intros y Hy. rewrite (HP y (or_intror Hy)). simpl. split; [| tauto ].
    intros [-> | H]; [ contradiction | assumption ].
Qed.

Lemma subseq_flat_map_preorder (l : list Node) :
  subseq l (flat_map preorder l).
Proof.
  induction l as [| x l IH]; simpl; [ constructor |].
  rewrite preorder_eq. simpl. apply subseq_take.
  exact (subseq_app [] (descendants x) l (flat_map preorder l)
                    (subseq_nil_l _) IH).
Qed.

Lemma child_nodes_subseq_descendants (n : Node) :
  subseq (child_nodes n) (descendants n).
Proof. apply subseq_flat_map_preorder. Qed.

End MatchFacts.

(* ================================================================== *)
(** ** Facts about the extractors *)
(* ================================================================== *)

Module StractorFacts.
Import Engine Spec Stractor.
Import EngineFacts PyStrFacts.

Lemma fold_left_append_map {A B : Type} (f : A -> B) (xs : list A) :
  forall acc, fold_left (fun acc x => acc ++ [f x]) xs acc = acc ++ map f xs.
Proof.
  induction xs as [| x xs IH]; intros acc; simpl.
  - now rewrite app_nil_r.
  - rewrite IH. now rewrite <- app_assoc.
Qed.

(** The loop of [_get_module_functions] and [_get_methods_of_class] builds
    one [Function] per match, in the order of the matches. *)
Lemma collect_functions_map {lang : Language} (self : t)
      (matches : list Match) :
  collect_functions self matches = map (function_of_match self) matches.
Proof.
  unfold collect_functions. now rewrite fold_left_append_map.
Qed.

(** The module docstring: the first string statement of a module scope. *)
Lemma get_module_docstring_eq (self : t) :
  _get_module_docstring self
  = match string_statements_in "module" (tree self) with
    | s :: _ => PyStr.or_none (clean_docstring (_text self (Some s)))
    | [] => None
    end.
Proof.
  unfold _get_module_docstring, module_docstring_scm.
  rewrite query_matches_docstring.
  destruct (string_statements_in "module" (tree self)); reflexivity.
Qed.

(** The docstring the splitter returns: the first string statement of a
    block of the body. *)
Lemma extract_docstring_eq (self : t) (body : Node) :
  fst (_extract_docstring_and_body self (Some body))
  = match string_statements_in "block" body with
    | s :: _ => Some (clean_docstring (_text self (Some s)))
    | [] => None
    end.
Proof.
  unfold _extract_docstring_and_body, block_docstring_scm.
  rewrite query_matches_docstring.
  destruct (string_statements_in "block" body); reflexivity.
Qed.

Lemma function_documentation_eq {lang : Language} (self : t) (m : Match) :
  Function.documentation (function_of_match self m)
  = opt_or_none (fst (_extract_docstring_and_body self (_get_node m "body"))).
Proof.
  unfold function_of_match.
  destruct (_extract_docstring_and_body self (_get_node m "body")); reflexivity.
Qed.

Lemma function_body_eq {lang : Language} (self : t) (m : Match) :
  Function.body (function_of_match self m)
  = opt_or_none (snd (_extract_docstring_and_body self (_get_node m "body"))).
Proof.
  unfold function_of_match.
  destruct (_extract_docstring_and_body self (_get_node m "body")); reflexivity.
Qed.

Lemma or_none_some (s d : string) : PyStr.or_none s = Some d -> d = s.
Proof.
  unfold PyStr.or_none. destruct (PyStr.truthy s); [| discriminate ].
  intros H. now inversion H.
Qed.

Lemma opt_or_none_not_empty (x : option string) : opt_or_none x <> Some "".
Proof.
  destruct x; simpl; [ apply or_none_not_empty | discriminate ].
Qed.

End StractorFacts.

(* ================================================================== *)
(** ** The queries of core.py on the tree of a source file *)
(* ================================================================== *)

Module QueryFacts.
Import Engine Spec Stractor.
Import EngineFacts MatchFacts PyStrFacts StractorFacts.

Lemma matches_at_other_kind (kind : string) (capture : option string)
      (subs : list (option string * bool * Pattern)) (n : Node) :
  has_type kind n = false ->
  matches_at (PNode kind capture subs) n = [].
Proof.
  unfold matches_at, has_type. intros H. now rewrite match_at_eq, H.
Qed.

Lemma flat_map_all_nil {A B : Type} (f : A -> list B) (l : list A) :
  (forall x, In x l -> f x = []) -> flat_map f l = [].
Proof.
  induction l as [| x l IH]; simpl; intros H; [ reflexivity |].
  rewrite (H x (or_introl eq_refl)). apply IH. intros y Hy. apply H. now right.
Qed.

Lemma query_matches_eq (p : Pattern) (root : Node) :
  query_matches p root
  = matches_at p root ++ flat_map (query_matches p) (child_nodes root).
Proof.
  unfold query_matches. rewrite preorder_eq. simpl. f_equal.
  unfold descendants.
  induction (child_nodes root) as [| c cs IH]; simpl; [ reflexivity |].
  now rewrite flat_map_app, IH.
Qed.

(** A query that cannot match at the root: its matches are those of the
    subtrees of the children, from left to right. *)
Lemma query_matches_children (kind : string) (capture : option string)
      (subs : list (option string * bool * Pattern)) (root : Node) :
  has_type kind root = false ->
  query_matches (PNode kind capture subs) root
  = flat_map (query_matches (PNode kind capture subs)) (child_nodes root).
Proof.
  intros H. rewrite query_matches_eq.
  now rewrite matches_at_other_kind by assumption.
Qed.

Lemma module_tree_parts (root : Node) :
  module_tree root = true ->
  has_type "module" root = true
  /\ (forall n, In n (descendants root) -> has_type "module" n = false)
  /\ NoDup (preorder root).
Proof.
  unfold module_tree. rewrite !andb_true_iff. intros [[Hm Hd] Hn].
  repeat split; [ assumption | | now apply all_distinct_NoDup ].
  intros n Hin. rewrite forallb_forall in Hd.
  now apply negb_true_iff, Hd.
Qed.

(** A query anchored at the module only matches at the root. *)
Lemma query_matches_module (capture : option string)
      (subs : list (option string * bool * Pattern)) (root : Node) :
  module_tree root = true ->
  query_matches (PNode "module" capture subs) root
  = matches_at (PNode "module" capture subs) root.
Proof.
  intros H. destruct (module_tree_parts root H) as (_ & Hd & _).
  unfold query_matches. rewrite preorder_eq. simpl.
  rewrite flat_map_all_nil; [ apply app_nil_r |].
  intros n Hn. apply matches_at_other_kind. now apply Hd.
Qed.

(** A node is captured by a reported match exactly when some way of
    matching the pattern captures it. *)
Lemma captured_matches_at (p : Pattern) (n x : Node) (name : string) :
  captured name (matches_at p n) x = true
  <-> exists m, In m (match_at p n) /\ In (name, x) m.
Proof.
  unfold captured, matches_at. rewrite existsb_exists. split.
  - intros (m & Hm & Hc). apply in_map_iff in Hm.
    destruct Hm as (m0 & <- & Hm0). simpl in Hc.
    exists m0. split; [ now apply maximal_incl | now apply existsb_capture_eqb ].
  - intros (m & Hm & Hc).
    destruct (maximal_covers _ _ Hm) as (m' & Hm' & Hincl).
    exists (0, m'). split; [ apply in_map_iff; eauto |].
    simpl. apply existsb_capture_eqb. now apply Hincl.
Qed.

Lemma in_match_at_leaf (kind name : string) (c : Node) (m : Captures) :
  In m (match_at (PNode kind (Some name) []) c)
  <-> has_type kind c = true /\ m = [(name, c)].
Proof.
  rewrite match_at_leaf. destruct (has_type kind c); simpl.
  - split; [ intros [<- | []]; auto | intros [_ ->]; now left ].
  - split; [ easy | intros [H _]; discriminate ].
Qed.


Lemma in_child_splits (c : Node) (cs : list (option string * Node)) :
  In c (map snd cs) -> exists f after, In ((f, c), after) (splits cs).
Proof.
  intros H. apply in_map_iff in H. destruct H as ([f c'] & Hc & Hin).
  simpl in Hc. subst c'.
  apply in_split in Hin. destruct Hin as (before & after & ->).
  exists f, after. apply splits_in.
Qed.

(** The import query captures the import statements of the module, and
    nothing else. *)
Lemma import_captured (root x : Node) :
  has_type "module" root = true ->
  (exists m, In m (match_at imports_scm root) /\ In ("import", x) m)
  <-> In x (filter is_import (child_nodes root)).
Proof.
  intros Hroot. unfold imports_scm, child_opt.
  rewrite filter_In. unfold is_import, child_nodes.
  split.
  - intros (m & Hm & Hx). rewrite match_at_eq in Hm.
    unfold has_type in Hroot. rewrite Hroot in Hm.
    apply in_map_iff in Hm. destruct Hm as (m0 & <- & Hm0).
    simpl in Hx.
    apply in_match_subs_cons in Hm0.
    assert (Hsecond :
             forall cs' m2,
               incl cs' (children root) ->
               In m2 (match_subs
                        [(None, true, PNode "import_from_statement" (Some "import") [])]
                        cs') ->
               In ("import", x) m2 ->
               In x (map snd (children root))
               /\ has_type "import_statement" x || has_type "import_from_statement" x = true).
    { intros cs' m2 Hincl Hm2 Hx2. apply in_match_subs_cons in Hm2.
      destruct Hm2 as [(f & c & after & m1 & m3 & Hs & _ & Hm1 & Hm3 & ->) | [_ Hm2]].
      - apply in_match_at_leaf in Hm1. destruct Hm1 as [Hty ->].
        simpl in Hm3. destruct Hm3 as [<- | []].
        simpl in Hx2. destruct Hx2 as [Hx2 | []]. inversion Hx2; subst c.
        split; [| now rewrite Hty, orb_true_r ].
        apply in_splits_in in Hs. destruct Hs as [Hc _].
        apply in_map_iff. exists (f, x). split; [ reflexivity | now apply Hincl ].
      - simpl in Hm2. destruct Hm2 as [<- | []]. contradiction. }
    destruct Hm0 as [(f & c & after & m1 & m2 & Hs & _ & Hm1 & Hm2 & ->) | [_ Hm0]].
    + apply in_match_at_leaf in Hm1. destruct Hm1 as [Hty ->].
      pose proof (in_splits_in _ _ _ Hs) as [Hc Hafter].
      simpl in Hx. destruct Hx as [Hx | Hx].
      * inversion Hx; subst c. split; [| now rewrite Hty ].
        apply in_map_iff. now exists (f, x).
      * exact (Hsecond after m2 Hafter Hm2 Hx).
    + exact (Hsecond (children root) m0 (incl_refl _) Hm0 Hx).
  - intros [Hin Hty]. apply in_child_splits in Hin.
    destruct Hin as (f & after & Hs).
    exists [("import", x)]. split; [| now left ].
    rewrite match_at_eq. unfold has_type in Hroot. rewrite Hroot.
    apply in_map_iff. exists [("import", x)]. split; [ reflexivity |].
    apply in_match_subs_cons.
    destruct (has_type "import_statement" x) eqn:Himp.
    + left. exists f, x, after, [("import", x)], [].
      repeat split; try assumption.
      * apply in_match_at_leaf. now split.
      * apply in_match_subs_cons. right. split; [ reflexivity | now left ].
    + right. split; [ reflexivity |].
      apply in_match_subs_cons. left.
      exists f, x, after, [("import", x)], [].
      repeat split; try assumption.
      * apply in_match_at_leaf. now split.
      * now left.
Qed.


Lemma collect_texts_eq (self : Stractor.t) (nodes : list Node) :
  collect_texts self nodes = texts self nodes.
Proof.
  unfold collect_texts, texts.
  assert (H : forall acc,
             fold_left
               (fun acc node =>
                  let text := _text self (Some node) in
                  if PyStr.truthy text then acc ++ [text] else acc)
               nodes acc
             = acc ++ filter PyStr.truthy
                             (map (fun n => _text self (Some n)) nodes)).
  { induction nodes as [| n nodes IH]; intros acc.
    - simpl. now rewrite app_nil_r.
    - cbn [fold_left map filter]. cbv zeta.
      destruct (PyStr.truthy (_text self (Some n))); rewrite IH.
      + now rewrite <- app_assoc.
      + reflexivity. }
  exact (H []).
Qed.

Lemma subseq_children_preorder (root : Node) (L : list Node) :
  subseq L (child_nodes root) -> subseq L (preorder root).
Proof.
  intros H. rewrite preorder_eq. apply subseq_skip.
  exact (subseq_trans _ _ _ H (child_nodes_subseq_descendants root)).
Qed.

(** The nodes captured under [import], as the reference dict lists them:
    the import statements among the children of the module. *)
Lemma import_nodes (root : Node) :
  module_tree root = true ->
  filter (captured "import" (query_matches imports_scm root)) (preorder root)
  = filter is_import (child_nodes root).
Proof.
  intros H. destruct (module_tree_parts root H) as (Hm & _ & Hnd).
  unfold imports_scm at 1. rewrite query_matches_module by assumption.
  fold imports_scm.
  apply filter_subseq; [| assumption |].
  - apply subseq_children_preorder, subseq_filter.
  - intros x _. rewrite captured_matches_at. now apply import_captured.
Qed.

(** [_get_imports] with [document_order]: the texts of the import
    statements of the module; a [KeyError] when there is none. *)
Lemma get_imports_eq (self : Stractor.t) :
  module_tree (tree self) = true ->
  _get_imports self
  = match filter is_import (child_nodes (tree self)) with
    | [] => Raise (KeyError "import")
    | ns => Ok (texts self ns)
    end.
Proof.
  intros H. unfold _get_imports. cbn [captures document_order]. unfold query_captures.
  change (nodup string_dec (capture_names imports_scm)) with ["import"].
  cbn [flat_map]. rewrite import_nodes by assumption.
  destruct (filter is_import (child_nodes (tree self))) as [| n ns].
  - reflexivity.
  - simpl. now rewrite collect_texts_eq.
Qed.

Lemma subseq_statements_of (kind : string) (root : Node) :
  subseq (statements_of kind root) (preorder root).
Proof.
  rewrite preorder_eq. apply subseq_skip.
  unfold statements_of, descendants.
  apply subseq_flat_map. intros c _.
  destruct (has_type "expression_statement" c); [| apply subseq_nil_l ].
  apply subseq_children_preorder, subseq_filter.
Qed.

(** The nodes captured under [assignment], as the reference dict lists
    them. *)
Lemma assignment_nodes (root : Node) :
  module_tree root = true ->
  filter (captured "assignment" (query_matches attributes_scm root)) (preorder root)
  = statements_of "assignment" root.
Proof.
  intros H. destruct (module_tree_parts root H) as (Hm & _ & Hnd).
  unfold attributes_scm at 1. rewrite query_matches_module by assumption.
  apply filter_subseq; [ apply subseq_statements_of | assumption |].
  intros x _. rewrite captured_matches_at.
  unfold child. rewrite (match_at_scope_statement "module" "assignment" "assignment").
  rewrite Hm. split.
  - intros (m & Hin & Hx). apply in_map_iff in Hin.
    destruct Hin as (s & <- & Hs). destruct Hx as [Hx | []].
    inversion Hx. now subst.
  - intros Hx. exists [("assignment", x)]. split; [| now left ].
    apply in_map_iff. now exists x.
Qed.

(** [_get_top_level_attributes] with [document_order]: the texts of the
    assignment statements of the module; a [KeyError] when there is none. *)
Lemma get_top_level_attributes_eq (self : Stractor.t) :
  module_tree (tree self) = true ->
  _get_top_level_attributes self
  = match statements_of "assignment" (tree self) with
    | [] => Raise (KeyError "assignment")
    | ns => Ok (texts self ns)
    end.
Proof.
  intros H. unfold _get_top_level_attributes. cbn [captures document_order].
  unfold query_captures.
  change (nodup string_dec (capture_names attributes_scm)) with ["assignment"].
  cbn [flat_map]. rewrite assignment_nodes by assumption.
  destruct (statements_of "assignment" (tree self)) as [| n ns].
  - reflexivity.
  - simpl. now rewrite collect_texts_eq.
Qed.


(** *** Functions *)






(** *** Classes *)

(** A match of the class pattern binds [class_node] to the class it is
    found at. *)
Lemma class_match_node (n : Node) (m : Match) :
  In m (matches_at classes_scm n) ->
  _get_node m "class_node" = Some n /\ has_type "class_definition" n = true.
Proof.
  unfold matches_at. intros Hm. apply in_map_iff in Hm.
  destruct Hm as (m0 & <- & Hm0). apply maximal_incl in Hm0.
  unfold classes_scm in Hm0. rewrite match_at_eq in Hm0. unfold has_type.
  destruct (String.eqb (type n) "class_definition"); [| contradiction ].
  apply in_map_iff in Hm0. destruct Hm0 as (m1 & <- & _).
  split; reflexivity.
Qed.

Lemma in_query_matches (p : Pattern) (root : Node) (m : Match) :
  In m (query_matches p root)
  <-> exists n, In n (preorder root) /\ In m (matches_at p n).
Proof. unfold query_matches. apply in_flat_map. Qed.

Lemma entity_of_match_eq (self : Stractor.t) (m : Match) (c : Node) :
  _get_node m "class_node" = Some c ->
  entity_of_match self m = Ok (entity_at self m).
Proof.
  intros H. unfold entity_of_match, entity_at. rewrite H. simpl.
  unfold functions_in. now rewrite collect_functions_map.
Qed.

Lemma for_each_map {A B : Type} (body : A -> Result B) (g : A -> B)
      (xs : list A) :
  (forall x, In x xs -> body x = Ok (g x)) ->
  forall acc,
    for_each (fun s x => y <- body x ;; Ok (s ++ [y])) xs acc
    = Ok (acc ++ map g xs).
Proof.
  unfold for_each. induction xs as [| x xs IH]; intros H acc; simpl.
  - now rewrite app_nil_r.
  - rewrite (H x (or_introl eq_refl)). simpl.
    rewrite IH by (intros y Hy; apply H; now right).
    now rewrite <- app_assoc.
Qed.

(** [_get_classes] with [document_order] never raises: it returns the
    entity of every match of the class pattern, in the order of the
    reference list. *)
Lemma get_classes_eq (self : Stractor.t) :
  _get_classes self = Ok (entities_in self (tree self)).
Proof.
  unfold _get_classes, entities_in. cbn [matches document_order].
  refine (for_each_map (entity_of_match self) (entity_at self) _ _ []).
  intros m Hm. apply in_query_matches in Hm. destruct Hm as (n & _ & Hm).
  destruct (class_match_node n m Hm) as [Hc _].
  exact (entity_of_match_eq self m n Hc).
Qed.

End QueryFacts.

(* ================================================================== *)
(** ** The class query and the docstring of a class *)
(* ================================================================== *)

Module ClassFacts.
Import Engine Spec Stractor.
Import EngineFacts MatchFacts PyStrFacts StractorFacts QueryFacts.






(** A match of the class pattern binds [name] to the name of the class. *)
Lemma class_match_name (c : Node) (m : Match) :
  In m (matches_at classes_scm c) ->
  exists x,
    _get_node m "name" = Some x
    /\ In (Some "name", x) (children c)
    /\ has_type "identifier" x = true.
Proof.
  unfold matches_at. intros Hm. apply in_map_iff in Hm.
  destruct Hm as (m0 & <- & Hm0). apply maximal_incl in Hm0.
  unfold classes_scm, child in Hm0. rewrite match_at_eq in Hm0.
  destruct (String.eqb (type c) "class_definition"); [| contradiction ].
  apply in_map_iff in Hm0. destruct Hm0 as (m1 & <- & Hm1).
  apply in_match_subs_cons in Hm1.
  destruct Hm1 as [(f & x & after & ma & mb & Hs & Hf & Hma & _ & ->) | [Ho _]];
    [| discriminate ].
  apply in_match_at_leaf in Hma. destruct Hma as [Hx ->].
  exists x. repeat split; [| assumption ].
  apply in_splits_in in Hs. destruct Hs as [Hin _].
  destruct f as [f |]; cbn [field_ok] in Hf; [| discriminate ].
  apply String.eqb_eq in Hf. now subst f.
Qed.

End ClassFacts.

(* ================================================================== *)
(** ** Facts about the order of delivery *)
(* ================================================================== *)

Module OrderFacts.
Import Engine Spec Stractor Order.
Import EngineFacts MatchFacts PyStrFacts StractorFacts QueryFacts ClassFacts.

(** *** The relation between matches *)

Lemma reach_bound (cs : Captures) (k : nat) :
  (forall c, In c cs -> end_byte (snd c) <= k) ->
  fold_right (fun c k => Nat.max (end_byte (snd c)) k) 0 cs <= k.
Proof.
  induction cs as [| c cs IH]; intros H; simpl; [ lia |].
  apply Nat.max_lub.
  - apply H. now left.
  - apply IH. intros c' Hc'. apply H. now right.
Qed.

Lemma reach_covers (cs : Captures) (c : string * Node) :
  In c cs ->
  end_byte (snd c) <= fold_right (fun c k => Nat.max (end_byte (snd c)) k) 0 cs.
Proof.
  induction cs as [| c' cs IH]; [ intros [] |].
  intros [-> | H]; simpl.
  - apply Nat.le_max_l.
  - etransitivity; [ now apply IH | apply Nat.le_max_r ].
Qed.

(** A match that lies before another ends before it does. *)
Lemma lies_before_reach (m1 m2 : Match) :
  lies_before m1 m2 = true -> reach m1 < reach m2.
Proof.
  unfold lies_before, reach.
  destruct (snd m1) as [| x xs] eqn:H1; [ discriminate |].
  destruct (snd m2) as [| y ys] eqn:H2; [ discriminate |].
  intros H. rewrite forallb_forall in H.
  assert (Hy : forall c, In c (x :: xs) ->
                         end_byte (snd c) <= start_byte (snd y)
                         /\ start_byte (snd y) < end_byte (snd y)).
  { intros c Hc. specialize (H c Hc). rewrite forallb_forall in H.
    specialize (H y (or_introl eq_refl)). unfold before in H.
    apply andb_prop in H. destruct H as [Ha Hb].
    apply Nat.leb_le in Ha. apply Nat.ltb_lt in Hb. lia. }
  apply Nat.le_lt_trans with (start_byte (snd y)).
  - apply reach_bound. intros c Hc. now apply Hy.
  - apply Nat.lt_le_trans with (end_byte (snd y)).
    + now apply (Hy x (or_introl eq_refl)).
    + apply (reach_covers (y :: ys) y). now left.
Qed.

Lemma lies_before_irrefl (m : Match) : lies_before m m = false.
Proof.
  destruct (lies_before m m) eqn:H; [| reflexivity ].
  apply lies_before_reach in H. lia.
Qed.

(** The match of a docstring query that binds [s] lies before the one that
    binds [s'] when [s] is before [s']. *)
Lemma lies_before_doc (s s' : Node) :
  lies_before (0, [("doc", s)]) (0, [("doc", s')]) = before s s'.
Proof. unfold lies_before. simpl. now rewrite !andb_true_r. Qed.

(** *** The engine [end_order] *)

Lemma insert_by_reach_perm (m : Match) (ms : list Match) :
  Permutation (insert_by_reach m ms) (m :: ms).
Proof.
  induction ms as [| m' ms IH]; simpl; [ reflexivity |].
  destruct (reach m <=? reach m')%nat; [ reflexivity |].
  rewrite IH. apply perm_swap.
Qed.

Lemma sort_by_reach_perm (ms : list Match) : Permutation (sort_by_reach ms) ms.
Proof.
  induction ms as [| m ms IH]; simpl; [ reflexivity |].
  rewrite insert_by_reach_perm. now apply perm_skip.
Qed.

Lemma insert_by_reach_sorted (m : Match) (ms : list Match) :
  ForallOrdPairs (fun a b => reach a <= reach b) ms ->
  ForallOrdPairs (fun a b => reach a <= reach b) (insert_by_reach m ms).
Proof.
  induction 1 as [| m' ms Hm' Hms IH]; simpl.
  - constructor; constructor.
  - destruct (reach m <=? reach m')%nat eqn:Hle.
    + apply Nat.leb_le in Hle. constructor.
      * constructor; [ assumption |].
        apply Forall_forall. intros x Hx. rewrite Forall_forall in Hm'.
        specialize (Hm' x Hx). lia.
      * now constructor.
    + apply Nat.leb_gt in Hle. constructor; [| assumption ].
      apply Forall_forall. intros x Hx.
      apply (Permutation_in _ (insert_by_reach_perm m ms)) in Hx.
      destruct Hx as [<- | Hx]; [ lia |].
      rewrite Forall_forall in Hm'. now apply Hm'.
Qed.

Lemma sort_by_reach_sorted (ms : list Match) :
  ForallOrdPairs (fun a b => reach a <= reach b) (sort_by_reach ms).
Proof.
  induction ms as [| m ms IH]; simpl; [ constructor |].
  now apply insert_by_reach_sorted.
Qed.

Lemma sorted_in_source_order (ms : list Match) :
  ForallOrdPairs (fun a b => reach a <= reach b) ms ->
  in_source_order ms = true.
Proof.
  induction 1 as [| m ms Hm _ IH]; simpl; [ reflexivity |].
  rewrite IH, andb_true_r. apply forallb_forall. intros m' Hm'.
  rewrite Forall_forall in Hm. specialize (Hm m' Hm').
  destruct (lies_before m' m) eqn:Hb; [| reflexivity ].
  apply lies_before_reach in Hb. lia.
Qed.

Lemma getitem_map_rev (d : list (string * list Node)) (name : string) :
  getitem (map (fun kv => (fst kv, rev (snd kv))) d) name
  = match getitem d name with
    | Ok ns => Ok (rev ns)
    | Raise e => Raise e
    end.
Proof.
  induction d as [| [k v] d IH]; simpl; [ reflexivity |].
  destruct (String.eqb k name); [ reflexivity | exact IH ].
Qed.

(** [end_order] keeps the contract. *)
Lemma end_order_conforms : conforms end_order.
Proof.
  split.
  - intros p root _. cbn [matches end_order]. split.
    + apply sort_by_reach_perm.
    + apply sorted_in_source_order, sort_by_reach_sorted.
  - intros p root _ name. cbn [captures end_order].
    rewrite getitem_map_rev.
    destruct (getitem (query_captures p root) name) as [ns | e];
      [| exact I ].
    apply Permutation_sym, Permutation_rev.
Qed.

(** *** Lists in an order the contract allows *)

Lemma in_source_order_head (m : Match) (ms : list Match) :
  in_source_order (m :: ms) = true ->
  forall m', In m' (m :: ms) -> lies_before m' m = false.
Proof.
  simpl. intros H m' [<- | Hm'].
  - apply lies_before_irrefl.
  - apply andb_prop in H. destruct H as [H _].
    rewrite forallb_forall in H. specialize (H m' Hm').
    now apply negb_true_iff in H.
Qed.




Lemma delivered_permutation {A : Type} (l : list A) (f : Match -> A)
      (canon : list Match) :
  delivered l f canon -> Permutation l (map f canon).
Proof. intros (ms & Hp & _ & ->). now apply Permutation_map. Qed.

Lemma filter_permutation {A : Type} (keep : A -> bool) (l l' : list A) :
  Permutation l l' -> Permutation (filter keep l) (filter keep l').
Proof.
  induction 1 as [| x l l' _ IH | x y l | l l' l'' _ IH1 _ IH2]; simpl.
  - constructor.
  - destruct (keep x); [ now apply perm_skip | assumption ].
  - destruct (keep x), (keep y); try reflexivity. apply perm_swap.
  - now transitivity (filter keep l').
Qed.

Lemma texts_permutation (self : Stractor.t) (ns ns' : list Node) :
  Permutation ns ns' -> Permutation (texts self ns) (texts self ns').
Proof.
  intros H. unfold texts. now apply filter_permutation, Permutation_map.
Qed.

(** *** The reference lists of the queries of core.py *)

Lemma captured_imports (root : Node) :
  module_tree root = true ->
  getitem (query_captures imports_scm root) "import"
  = match filter is_import (child_nodes root) with
    | [] => Raise (KeyError "import")
    | ns => Ok ns
    end.
Proof.
  intros H. unfold query_captures.
  change (nodup string_dec (capture_names imports_scm)) with ["import"].
  cbn [flat_map]. rewrite import_nodes by assumption.
  destruct (filter is_import (child_nodes root)); reflexivity.
Qed.

Lemma captured_assignments (root : Node) :
  module_tree root = true ->
  getitem (query_captures attributes_scm root) "assignment"
  = match statements_of "assignment" root with
    | [] => Raise (KeyError "assignment")
    | ns => Ok ns
    end.
Proof.
  intros H. unfold query_captures.
  change (nodup string_dec (capture_names attributes_scm)) with ["assignment"].
  cbn [flat_map]. rewrite assignment_nodes by assumption.
  destruct (statements_of "assignment" root); reflexivity.
Qed.


(** *** Engines within the contract *)

Section Conforming.
Context {lang : Language} (Hlang : conforms lang).

Lemma matches_permutation (p : Pattern) (root : Node) :
  In p match_queries -> Permutation (matches p root) (query_matches p root).
Proof. intros Hp. now apply (proj1 Hlang). Qed.

Lemma matches_in_order (p : Pattern) (root : Node) :
  In p match_queries -> in_source_order (matches p root) = true.
Proof. intros Hp. now apply (proj1 Hlang). Qed.

Lemma matches_delivered {A : Type} (f : Match -> A) (p : Pattern)
      (root : Node) :
  In p match_queries ->
  delivered (map f (matches p root)) f (query_matches p root).
Proof.
  intros Hp. exists (matches p root).
  repeat split; [ now apply matches_permutation | now apply matches_in_order ].
Qed.

Lemma in_matches (p : Pattern) (root : Node) (m : Match) :
  In p match_queries ->
  In m (matches p root) <-> In m (query_matches p root).
Proof.
  intros Hp. pose proof (matches_permutation p root Hp) as H. split.
  - apply (Permutation_in _ H).
  - apply (Permutation_in _ (Permutation_sym H)).
Qed.

(** No match lies before the first match an engine delivers. *)
Lemma first_match (p : Pattern) (root : Node) (m : Match) (ms : list Match) :
  In p match_queries ->
  matches p root = m :: ms ->
  forall m', In m' (query_matches p root) -> lies_before m' m = false.
Proof.
  intros Hp Hm m' Hm'.
  apply (in_source_order_head m ms).
  - rewrite <- Hm. now apply matches_in_order.
  - rewrite <- Hm. now apply in_matches.
Qed.

(** The first match of a docstring query binds the string statement that
    comes first. *)
Lemma docstring_first_match (scope : string) (root s : Node) :
  In (PNode scope None [child None (string_statement None (Some "doc"))])
     match_queries ->
  comes_first s (string_statements_in scope root) = true ->
  exists ms,
    matches (PNode scope None [child None (string_statement None (Some "doc"))])
            root
    = (0, [("doc", s)]) :: ms.
Proof.
  intros Hp Hs. unfold comes_first in Hs. apply andb_prop in Hs.
  destruct Hs as [Hin Hfirst].
  apply existsb_exists in Hin. destruct Hin as (s0 & Hin & Heq).
  apply Node_eqb_eq in Heq. subst s0.
  rewrite forallb_forall in Hfirst.
  pose proof (matches_permutation _ root Hp) as Hperm.
  rewrite query_matches_docstring in Hperm.
  destruct (matches (PNode scope None
                           [child None (string_statement None (Some "doc"))])
                    root) as [| m ms] eqn:Hm.
  - apply Permutation_nil in Hperm.
    destruct (string_statements_in scope root); [ contradiction | discriminate ].
  - exists ms. f_equal.
    assert (Hmin : In m (map (fun s => (0, [("doc", s)]))
                             (string_statements_in scope root))).
    { apply (Permutation_in _ Hperm). now left. }
    apply in_map_iff in Hmin. destruct Hmin as (s' & <- & Hs').
    specialize (Hfirst s' Hs'). apply orb_prop in Hfirst.
    destruct Hfirst as [Heq | Hb].
    + apply Node_eqb_eq in Heq. now subst s'.
    + exfalso.
      assert (Hf : lies_before (0, [("doc", s)]) (0, [("doc", s')]) = false).
      { apply (first_match _ root _ ms Hp Hm).
        rewrite query_matches_docstring. apply in_map_iff. now exists s. }
      rewrite lies_before_doc, Hb in Hf. discriminate.
Qed.


Lemma module_docstring_query :
  In (PNode "module" None [child None (string_statement None (Some "doc"))])
     match_queries.
Proof. now left. Qed.

Lemma block_docstring_query :
  In (PNode "block" None [child None (string_statement None (Some "doc"))])
     match_queries.
Proof. do 4 right. now left. Qed.

(** The module docstring. *)
Lemma module_docstring_first (self : Stractor.t) (s : Node) :
  comes_first s (string_statements_in "module" (tree self)) = true ->
  _get_module_docstring self
  = PyStr.or_none (clean_docstring (_text self (Some s))).
Proof.
  intros Hs.
  destruct (docstring_first_match "module" (tree self) s
                                  module_docstring_query Hs) as [ms Hm].
  unfold _get_module_docstring, module_docstring_scm. now rewrite Hm.
Qed.


(** The splitter. *)
Lemma extract_first (self : Stractor.t) (body s : Node) :
  comes_first s (string_statements_in "block" body) = true ->
  _extract_docstring_and_body self (Some body)
  = (Some (clean_docstring (_text self (Some s))),
     Some (clean_body
             (PyStr.strip
                (PyStr.join_lines
                   (filter_lines (PyStr.strip (_text self (Some s)))
                                 (PyStr.split_lines (_text self (Some body)))))))).
Proof.
  intros Hs.
  destruct (docstring_first_match "block" body s block_docstring_query Hs)
    as [ms Hm].
  unfold _extract_docstring_and_body, block_docstring_scm. now rewrite Hm.
Qed.


(** Imports and attributes. *)
Lemma imports_delivered (self : Stractor.t) :
  module_tree (tree self) = true ->
  match filter is_import (child_nodes (tree self)) with
  | [] => _get_imports self = Raise (KeyError "import")
  | ns => exists ns', Permutation ns' ns /\ _get_imports self = Ok (texts self ns')
  end.
Proof.
  intros H. unfold _get_imports.
  pose proof (proj2 Hlang imports_scm (tree self) (or_introl eq_refl) "import")
    as Hsame.
  rewrite captured_imports in Hsame by assumption.
  destruct (filter is_import (child_nodes (tree self))) as [| n ns].
  - destruct (getitem (captures imports_scm (tree self)) "import") as [ns' | e]
      eqn:Hg; [ contradiction |].
    assert (He : e = KeyError "import"); [| now subst e ].
    clear Hsame. revert Hg.
    induction (captures imports_scm (tree self)) as [| [k v] d IH]; simpl.
    + intros Hg. now inversion Hg.
    + destruct (String.eqb k "import"); [ discriminate | exact IH ].
  - destruct (getitem (captures imports_scm (tree self)) "import") as [ns' | e];
      [| contradiction ].
    exists ns'. split; [ assumption |]. simpl. now rewrite collect_texts_eq.
Qed.

Lemma attributes_delivered (self : Stractor.t) :
  module_tree (tree self) = true ->
  match statements_of "assignment" (tree self) with
  | [] => _get_top_level_attributes self = Raise (KeyError "assignment")
  | ns =>
      exists ns',
        Permutation ns' ns /\ _get_top_level_attributes self = Ok (texts self ns')
  end.
Proof.
  intros H. unfold _get_top_level_attributes.
  pose proof (proj2 Hlang attributes_scm (tree self)
                    (or_intror (or_introl eq_refl)) "assignment") as Hsame.
  rewrite captured_assignments in Hsame by assumption.
  destruct (statements_of "assignment" (tree self)) as [| n ns].
  - destruct (getitem (captures attributes_scm (tree self)) "assignment")
      as [ns' | e] eqn:Hg; [ contradiction |].
    assert (He : e = KeyError "assignment"); [| now subst e ].
    clear Hsame. revert Hg.
    induction (captures attributes_scm (tree self)) as [| [k v] d IH]; simpl.
    + intros Hg. now inversion Hg.
    + destruct (String.eqb k "assignment"); [ discriminate | exact IH ].
  - destruct (getitem (captures attributes_scm (tree self)) "assignment")
      as [ns' | e]; [| contradiction ].
    exists ns'. split; [ assumption |]. simpl. now rewrite collect_texts_eq.
Qed.

(** Functions and methods. *)
Lemma module_functions_delivered (self : Stractor.t) :
  delivered (_get_module_functions self) (function_of_match self)
            (query_matches functions_scm (tree self)).
Proof.
  unfold _get_module_functions. rewrite collect_functions_map.
  apply matches_delivered. right. now left.
Qed.

Lemma methods_delivered (self : Stractor.t) (class_node : Node) :
  exists methods,
    _get_methods_of_class self (Some class_node) = Ok methods
    /\ delivered methods (function_of_match self)
                 (query_matches methods_scm class_node).
Proof.
  eexists. split; [ reflexivity |]. rewrite collect_functions_map.
  apply matches_delivered. do 2 right. now left.
Qed.

(** Classes. *)
Lemma for_each_total {A B : Type} (body : A -> Result B) (xs : list A) :
  (forall x, In x xs -> exists y, body x = Ok y) ->
  forall acc,
  exists ys,
    for_each (fun s x => y <- body x ;; Ok (s ++ [y])) xs acc = Ok (acc ++ ys)
    /\ Forall2 (fun y x => body x = Ok y) ys xs.
Proof.
  unfold for_each. induction xs as [| x xs IH]; intros H acc.
  - exists []. split; [ simpl; now rewrite app_nil_r | constructor ].
  - destruct (H x (or_introl eq_refl)) as [y Hy].
    destruct (IH (fun z Hz => H z (or_intror Hz)) (acc ++ [y])) as (ys & Hys & HF).
    exists (y :: ys). split.
    + simpl. rewrite Hy. simpl. rewrite Hys. now rewrite <- app_assoc.
    + now constructor.
Qed.

(** The entity of a match of the class pattern: its name, its
    documentation and its methods. *)
Lemma entity_of_class_match (self : Stractor.t) (m : Match)
      (class_node : Node) :
  _get_node m "class_node" = Some class_node ->
  exists entity,
    entity_of_match self m = Ok entity
    /\ Entity.name entity = _text self (_get_node m "name")
    /\ Entity.type entity = "class"
    /\ Entity.documentation entity
       = PyStr.or_none
           (if PyStr.truthy (_text self (_get_node m "doc"))
            then clean_docstring (_text self (_get_node m "doc"))
            else _text self (_get_node m "doc"))
    /\ delivered (Entity.methods entity) (function_of_match self)
                 (query_matches methods_scm class_node).
Proof.
  intros Hc. unfold entity_of_match. rewrite Hc.
  destruct (methods_delivered self class_node) as (methods & -> & Hd).
  eexists. split; [ reflexivity |]. repeat split. exact Hd.
Qed.

Lemma classes_query : In classes_scm match_queries.
Proof. do 3 right. now left. Qed.

(** [_get_classes] returns one entity for every match of the class
    pattern, in the order of delivery. *)
Lemma classes_delivered (self : Stractor.t) :
  exists ms entities,
    Permutation ms (query_matches classes_scm (tree self))
    /\ in_source_order ms = true
    /\ _get_classes self = Ok entities
    /\ Forall2 (fun entity m => entity_of_match self m = Ok entity) entities ms.
Proof.
  exists (matches classes_scm (tree self)).
  destruct (for_each_total (entity_of_match self)
                           (matches classes_scm (tree self))) with (acc := @nil Entity.t)
    as (entities & He & HF).
  - intros m Hm. apply (in_matches _ _ _ classes_query) in Hm.
    apply in_query_matches in Hm. destruct Hm as (c & _ & Hm).
    destruct (class_match_node c m Hm) as [Hc _].
    destruct (entity_of_class_match self m c Hc) as (e & He & _).
    now exists e.
  - exists entities. repeat split.
    + apply matches_permutation, classes_query.
    + apply matches_in_order, classes_query.
    + exact He.
    + exact HF.
Qed.


Lemma parse_ok_intro (parser_parse : string -> Result Node)
      (source_code path : string) (root : Node)
      (imports attributes : list string) (entities : list Entity.t) :
  parser_parse source_code = Ok root ->
  _get_imports (Stractor.mk source_code root) = Ok imports ->
  _get_top_level_attributes (Stractor.mk source_code root) = Ok attributes ->
  _get_classes (Stractor.mk source_code root) = Ok entities ->
  parse parser_parse source_code path
  = Ok (SourceFile.mk
          path
          (_get_module_docstring (Stractor.mk source_code root))
          imports attributes
          (_get_module_functions (Stractor.mk source_code root))
          entities).
Proof.
  intros Hp Hi Ha Hc. unfold parse. rewrite Hp. cbn [bind].
  rewrite Hi. cbn [bind]. rewrite Ha. cbn [bind]. rewrite Hc. reflexivity.
Qed.

End Conforming.

End OrderFacts.

(* ================================================================== *)
(** ** The docstring rule (C1, C5) *)
(* ================================================================== *)

Section DocstringRule.
Import Engine Spec Stractor Order Examples MoreExamples.
Import EngineFacts MatchFacts PyStrFacts StractorFacts QueryFacts ClassFacts.
Import OrderFacts.




(** C5, the claim as stated fails: the content of this docstring ends with
    a quote character, which is removed together with the delimiter;
    removing one layer of delimiters would have kept it. *)
Lemma C5_content_quote_is_stripped :
  _get_module_docstring quoted_doc = Some "He said 'hi"
  /\ PyStr.or_none
       (PyStr.strip
          (strip_one_quote_layer
             (_text quoted_doc (hd_error (string_statements_in "module" (tree quoted_doc))))))
     = Some "He said 'hi'".
Proof.
  split; vm_compute; reflexivity.
Qed.

(** C5, amended.  The documentation of a module, a function or a class is
    [clean_docstring] of the verbatim text of a node, and [clean_docstring]
    removes every leading and every trailing quote character of the text,
    not one layer of delimiters: the text is [l ++ mid ++ r] where [l] and
    [r] consist of quote characters only and [mid] neither starts nor ends
    with one; the result is [mid] without its outer whitespace.  Quote
    characters inside [mid] are kept; quote characters at either end of the
    content are removed with the delimiters. *)
Theorem C5_quote_stripping (self : Stractor.t) :
  (forall d,
      _get_module_docstring self = Some d ->
      exists node, d = clean_docstring (_text self (Some node)))
  /\ (forall m d,
         Function.documentation (function_of_match self m) = Some d ->
         exists node, d = clean_docstring (_text self (Some node)))
  /\ (forall m e d,
         entity_of_match self m = Ok e ->
         Entity.documentation e = Some d ->
         exists node, d = clean_docstring (_text self (Some node)))
  /\ (forall text,
         exists l mid r,
           text = (l ++ mid ++ r)%string
           /\ all_in PyStr.quote_chars l = true
           /\ all_in PyStr.quote_chars r = true
           /\ head_in PyStr.quote_chars mid = false
           /\ last_in PyStr.quote_chars mid = false
           /\ clean_docstring text = PyStr.strip mid).
Proof.
  repeat split.
  - intros d. rewrite get_module_docstring_eq.
    destruct (string_statements_in "module" (tree self)) as [| s ss];
      [ discriminate |].
    intros H. apply or_none_some in H. now exists s.
  - intros m d. rewrite function_documentation_eq.
    destruct (_get_node m "body") as [body |]; [| discriminate ].
    rewrite extract_docstring_eq.
    destruct (string_statements_in "block" body) as [| s ss];
      [ discriminate |].
    intros H. apply or_none_some in H. now exists s.
  - intros m e d. unfold entity_of_match.
    destruct (_get_methods_of_class self (_get_node m "class_node"));
      [| discriminate ].
    intros H. inversion H; subst e; clear H.
    cbn [Entity.documentation].
    destruct (_get_node m "doc") as [node |]; [| discriminate ].
    destruct (PyStr.truthy (_text self (Some node))) eqn:Ht.
    + intros H. apply or_none_some in H. now exists node.
    + unfold PyStr.or_none. rewrite Ht. discriminate.
  - intros text. unfold clean_docstring.
    destruct (strip_chars_split PyStr.quote_chars text)
      as (l & r & Ht & Hl & Hr & Hh & Hlast).
    exists l, (PyStr.strip_chars PyStr.quote_chars text), r. tauto.
Qed.

(** The module docstring of [quoted_doc] is the cleaned text of a node. *)
Lemma C5_quote_stripping_witness :
  _get_module_docstring quoted_doc = Some "He said 'hi"
  /\ exists node, "He said 'hi" = clean_docstring (_text quoted_doc (Some node)).
Proof.
  split.
  - reflexivity.
  - exact (proj1 (C5_quote_stripping quoted_doc) "He said 'hi" eq_refl).
Defined.

End DocstringRule.

(* ================================================================== *)
(** ** The docstring/body splitter (C6, C8) *)
(* ================================================================== *)

Section Splitter.
Import Engine Spec Stractor Order Examples MoreExamples.
Import EngineFacts PyStrFacts StractorFacts SplitterFacts OrderFacts.




(** C8: the body of [f] in [multiline_doc] is its docstring and nothing
    else, and the docstring spans two lines.  No single line of the body
    contains the literal, so no line is dropped: the function is emitted
    with the literal as its body. *)
Theorem C8_multiline_docstring_stays_in_body :
  map (fun m => PyStr.split_lines (_text multiline_doc (_get_node m "body")))
      (query_matches functions_scm (tree multiline_doc))
  = [["'''a"; "    b'''"]]
  /\ map Function.documentation (_get_module_functions multiline_doc)
     = [Some (PyStr.join_lines ["a"; "    b"])]
  /\ map Function.body (_get_module_functions multiline_doc)
     = [Some (PyStr.join_lines ["'''a"; "    b'''"])].
Proof.
  repeat split; vm_compute; reflexivity.
Qed.

End Splitter.

(* ================================================================== *)
(** ** Scopes, parameters and absent values (C2, C3, C4, C10) *)
(* ================================================================== *)

Section Scopes.
Import Engine Spec Stractor Examples.
Import EngineFacts PyStrFacts StractorFacts.

(** C2: in [nested_class] the class [B] is defined inside the class [A];
    it is not a direct child of the module, and it gets an entry of its own
    in the list of entities. *)
Theorem C2_nested_class_is_an_entity :
  map type (child_nodes (tree nested_class)) = ["class_definition"]
  /\ exists entities,
      _get_classes nested_class = Ok entities
      /\ List.length entities = 2
      /\ In "B" (map Entity.name entities).
Proof.
  split; [ reflexivity |].
  eexists. split; [ vm_compute; reflexivity |].
  split; [ reflexivity | simpl; tauto ].
Qed.

(** C3: in [inner_fn] the function [inner] is defined inside the method
    [m]; it is not a direct child of the body of [A], and it is listed among
    the methods of [A]. *)
Theorem C3_inner_function_is_a_method :
  exists entity,
    _get_classes inner_fn = Ok [entity]
    /\ Entity.name entity = "A"
    /\ List.length (Entity.methods entity) = 2
    /\ In "inner" (map Function.name (Entity.methods entity)).
Proof.
  eexists. split; [ vm_compute; reflexivity |].
  repeat split; simpl; tauto.
Qed.

(** C4: the parameter list of [f] in [call_default] is [(x=g())]; without
    its outer pair of parentheses it is [x=g()], and the emitted parameters
    are [x=g]: the parentheses of the call are gone as well. *)
Theorem C4_inner_parentheses_are_stripped :
  map (fun m => _text call_default (_get_node m "params"))
      (query_matches functions_scm (tree call_default))
  = ["(x=g())"]
  /\ map Function.parameters (_get_module_functions call_default)
     = [Some "x=g"].
Proof.
  split; vm_compute; reflexivity.
Qed.

Lemma function_of_match_no_empty_field (self : Stractor.t) (m : Match) :
  no_empty_field (function_of_match self m).
Proof.
  unfold no_empty_field. rewrite function_documentation_eq, function_body_eq.
  repeat split; try apply opt_or_none_not_empty.
  - unfold function_of_match.
    destruct (_extract_docstring_and_body self (_get_node m "body")).
    apply or_none_not_empty.
  - unfold function_of_match.
    destruct (_extract_docstring_and_body self (_get_node m "body")).
    apply or_none_not_empty.
Qed.

(** C10.  An absent value of a [Function] is [None], never the empty
    string: no function of the module and no method of a class has an empty
    string in a field; a parameter list written [()] gives [parameters =
    None]; a match without a return type gives [return_type = None]; a body
    without a docstring gives [documentation = None]; and a body that the
    splitter leaves empty gives [body = None]. *)
Theorem C10_absent_is_none (self : Stractor.t) :
  Forall no_empty_field (_get_module_functions self)
  /\ (forall class_node methods,
         _get_methods_of_class self class_node = Ok methods ->
         Forall no_empty_field methods)
  /\ (forall m,
         _text self (_get_node m "params") = "()" ->
         Function.parameters (function_of_match self m) = None)
  /\ (forall m,
         _get_node m "return_type" = None ->
         Function.return_type (function_of_match self m) = None)
  /\ (forall m,
         fst (_extract_docstring_and_body self (_get_node m "body")) = None ->
         Function.documentation (function_of_match self m) = None)
  /\ (forall m,
         snd (_extract_docstring_and_body self (_get_node m "body")) = Some "" ->
         Function.body (function_of_match self m) = None).
Proof.
  repeat split.
  - unfold _get_module_functions. rewrite collect_functions_map.
    apply Forall_forall. intros f Hf. apply in_map_iff in Hf.
    destruct Hf as (m & <- & _). apply function_of_match_no_empty_field.
  - intros [node |] methods H; simpl in H; [| discriminate ].
    inversion H; subst methods. rewrite collect_functions_map.
    apply Forall_forall. intros f Hf. apply in_map_iff in Hf.
    destruct Hf as (m & <- & _). apply function_of_match_no_empty_field.
  - intros m Hp. unfold function_of_match.
    destruct (_extract_docstring_and_body self (_get_node m "body")).
    rewrite Hp. reflexivity.
  - intros m Hr. unfold function_of_match.
    destruct (_extract_docstring_and_body self (_get_node m "body")).
    rewrite Hr. reflexivity.
  - intros m Hd. now rewrite function_documentation_eq, Hd.
  - intros m Hb. now rewrite function_body_eq, Hb.
Qed.

(** The function of [later_fn] is written [def f():], without a return
    type. *)
Lemma C10_absent_is_none_witness :
  Forall (fun m =>
            _text later_fn (_get_node m "params") = "()"
            /\ Function.parameters (function_of_match later_fn m) = None)
         (query_matches functions_scm (tree later_fn)).
Proof.
  apply Forall_forall. intros m [<- | []].
  split; [ reflexivity |].
  apply (proj1 (proj2 (proj2 (C10_absent_is_none later_fn)))).
  reflexivity.
Defined.

End Scopes.

(* ================================================================== *)
(** ** Order of the lists, and the parse controller (C7, C9) *)
(* ================================================================== *)

Section Controller.
Import Engine Spec Stractor Order Examples MoreExamples.
Import EngineFacts MatchFacts PyStrFacts StractorFacts QueryFacts.
Import ClassFacts OrderFacts.

(** The scenario of the repository's test: the outline of [outline]. *)
Example parse_outline :
  parse (fun _ => Ok outline_tree) outline_src ""
  = Ok (SourceFile.mk
          ""
          (Some "top level docs")
          ["import ollama"; "from stractor.util import logger";
           "from google import genai"]
          ["default_model = 'deepseek-r1:8b'"]
          [Function.mk "get_auto_client" (Some "model: str = default_model") None
                       (Some "Get a client implementation based on the model name.")
                       (Some "pass");
           Function.mk "get_client" (Some "model: str = default_model") (Some "LLM")
                       (Some "Get a client implementation based on the model name.")
                       (Some (PyStr.join_lines
                                ["if model == 'default':";
                                 "        return LLMOllama()";
                                 "    return LLMGoogle(model)"]))]
          [Entity.mk "LLM" "class" (Some "Interface")
                     [Function.mk "chat_stream" (Some "self, prompt, think=False")
                                  (Some "str") (Some "Hello chat_stream") (Some "pass");
                      Function.mk "chat" (Some "self, prompt, output=None")
                                  None None (Some "print('lets chat')")]]).
Proof. vm_compute. reflexivity. Qed.




(** C9, in general: on the tree of a source file without an import
    statement, [parse] raises [KeyError]. *)
Theorem C9_parse_raises_without_imports
        (parser_parse : string -> Result Node) (source_code path : string)
        (root : Node) :
  parser_parse source_code = Ok root ->
  module_tree root = true ->
  filter is_import (child_nodes root) = [] ->
  parse parser_parse source_code path = Raise (KeyError "import").
Proof.
  intros Hp Hm Hi. unfold parse. rewrite Hp. cbn [bind].
  rewrite (get_imports_eq (Stractor.mk source_code root) Hm).
  cbn [tree]. now rewrite Hi.
Qed.

(** The empty source text. *)
Lemma C9_parse_raises_without_imports_witness :
  parse (fun _ => Ok empty_tree) "" "" = Raise (KeyError "import").
Proof.
  exact (C9_parse_raises_without_imports
           (fun _ => Ok empty_tree) "" "" empty_tree eq_refl eq_refl eq_refl).
Defined.

End Controller.

(* ================================================================== *)
(** ** Slices, lines and trimming *)
(* ================================================================== *)

Module TextFacts.
Import PyStr Spec MoreSpec.
Import PyStrFacts.

Lemma str_app_nil_r (s : string) : (s ++ "")%string = s.
Proof. induction s as [| x s IH]; simpl; [ reflexivity | now rewrite IH ]. Qed.

Lemma str_app_assoc (a b c : string) :
  ((a ++ b) ++ c)%string = (a ++ b ++ c)%string.
Proof. induction a as [| x a IH]; simpl; [ reflexivity | now rewrite IH ]. Qed.

Lemma str_app_length (a b : string) :
  String.length (a ++ b) = String.length a + String.length b.
Proof. induction a as [| x a IH]; simpl; [ reflexivity | now rewrite IH ]. Qed.

Lemma slice_of_refl (s : string) : slice_of s s.
Proof. exists "", "". simpl. now rewrite str_app_nil_r. Qed.

Lemma slice_of_trans (a b c : string) :
  slice_of a b -> slice_of b c -> slice_of a c.
Proof.
  intros (p1 & q1 & ->) (p2 & q2 & ->).
  exists (p2 ++ p1)%string, (q1 ++ q2)%string.
  now rewrite !str_app_assoc.
Qed.

(** A substring is a contiguous part of the string, which starts at the
    given offset when the offset is inside the string. *)
Lemma substring_slice (n m : nat) (s : string) :
  exists pre post,
    s = (pre ++ substring n m s ++ post)%string
    /\ (n <= String.length s -> String.length pre = n).
Proof.
  revert m s. induction n as [| n IHn]; intros m s.
  - exists "". simpl. revert s. induction m as [| m IHm]; intros s.
    + exists s. destruct s; simpl; auto.
    + destruct s as [| c s]; simpl.
      * exists "". auto.
      * destruct (IHm s) as (post & Hs & _). exists post. split; [| auto ].
        now rewrite <- Hs.
  - destruct s as [| c s]; simpl.
    + exists "", "". simpl. split; [ reflexivity | lia ].
    + destruct (IHn m s) as (pre & post & Hs & Hlen).
      exists (String c pre), post. simpl. split.
      * now rewrite <- Hs.
      * intros H. rewrite Hlen; lia.
Qed.

Lemma substring_length (n m : nat) (s : string) :
  String.length (substring n m s) = Nat.min m (String.length s - n).
Proof.
  revert m s. induction n as [| n IHn]; intros m s.
  - rewrite Nat.sub_0_r. revert s. induction m as [| m IHm]; intros s.
    + destruct s; reflexivity.
    + destruct s as [| c s]; simpl; [ reflexivity |]. now rewrite IHm.
  - destruct s as [| c s]; simpl.
    + now rewrite Nat.min_0_r.
    + apply IHn.
Qed.

(** *** Lines *)

Lemma split_lines_not_nil (s : string) : split_lines s <> [].
Proof.
  destruct s as [| c s]; simpl; [ discriminate |].
  destruct (Ascii.eqb c newline); [ discriminate |].
  destruct (split_lines s); discriminate.
Qed.

(** Joining the lines of a text gives the text back. *)
Lemma join_split_lines (s : string) : join_lines (split_lines s) = s.
Proof.
  induction s as [| c s IH]; [ reflexivity |].
  simpl split_lines.
  destruct (split_lines s) as [| l ls] eqn:Hs;
    [ now apply split_lines_not_nil in Hs |].
  destruct (Ascii.eqb c newline) eqn:Hc.
  - apply Ascii.eqb_eq in Hc. subst c.
    change (join_lines ("" :: l :: ls))
      with (String newline (join_lines (l :: ls))).
    now rewrite IH.
  - destruct ls as [| l' ls]; simpl in *; now rewrite IH.
Qed.

(** No line holds a newline. *)
Lemma split_lines_no_newline (s : string) :
  Forall (fun l => mem_char newline l = false) (split_lines s).
Proof.
  induction s as [| c s IH]; simpl; [ repeat constructor |].
  destruct (Ascii.eqb c newline) eqn:Hc.
  - constructor; [ reflexivity | assumption ].
  - destruct (split_lines s) as [| l ls] eqn:Hs;
      [ now apply split_lines_not_nil in Hs |].
    inversion IH as [| ? ? Hl Hls]; subst. constructor; [| assumption ].
    cbn [mem_char]. rewrite Ascii.eqb_sym, Hc. exact Hl.
Qed.

Lemma prefix_mem_char (c : ascii) (p s : string) :
  String.prefix p s = true -> mem_char c p = true -> mem_char c s = true.
Proof.
  revert s. induction p as [| x p IH]; intros s Hp Hc; [ discriminate |].
  destruct s as [| y s]; simpl in Hp; [ discriminate |].
  destruct (ascii_dec x y) as [-> | Hne]; [| discriminate ].
  simpl in *. apply orb_true_iff in Hc. apply orb_true_iff.
  destruct Hc as [Hc | Hc]; [ now left | right; now apply IH ].
Qed.

(** A text that is found in another has all its characters there. *)
Lemma contains_mem_char (c : ascii) (needle s : string) :
  contains needle s = true -> mem_char c needle = true -> mem_char c s = true.
Proof.
  induction s as [| y s IH]; simpl; intros H Hc.
  - rewrite orb_false_r in H. exact (prefix_mem_char c needle "" H Hc).
  - apply orb_true_iff in H. destruct H as [H | H].
    + exact (prefix_mem_char c needle (String y s) H Hc).
    + simpl. apply orb_true_iff. right. now apply IH.
Qed.


(** *** Reversal and trimming *)

Lemma rev_append_eq (s acc : string) :
  rev_append s acc = (rev s ++ acc)%string.
Proof.
  unfold rev. revert acc. induction s as [| c s IH]; intros acc; simpl.
  - reflexivity.
  - rewrite IH, (IH (String c "")). now rewrite str_app_assoc.
Qed.

Lemma rev_cons (c : ascii) (s : string) :
  rev (String c s) = (rev s ++ String c "")%string.
Proof. unfold rev at 1. simpl. apply rev_append_eq. Qed.

Lemma rev_app (a b : string) : rev (a ++ b) = (rev b ++ rev a)%string.
Proof.
  induction a as [| c a IH]; simpl.
  - now rewrite str_app_nil_r.
  - now rewrite !rev_cons, IH, str_app_assoc.
Qed.

Lemma rev_involutive (s : string) : rev (rev s) = s.
Proof.
  induction s as [| c s IH]; [ reflexivity |].
  now rewrite rev_cons, rev_app, IH.
Qed.

(** Trimming on the left removes a prefix. *)
Lemma lstrip_with_split (s2 : ascii -> ascii -> bool)
      (s3 : ascii -> ascii -> ascii -> bool) (s : string) :
  exists l, s = (l ++ lstrip_with s2 s3 s)%string.
Proof.
  remember (String.length s) as n eqn:Hn. revert s Hn.
  induction n as [n IH] using lt_wf_ind. intros s Hn.
  destruct s as [| a s1]; [ now exists "" |].
  simpl. destruct (space1 a).
  - destruct (IH (String.length s1)) with (s := s1) as [l Hl];
      [ subst n; simpl; lia | reflexivity |].
    exists (String a l). simpl. now rewrite <- Hl.
  - destruct s1 as [| b t2]; [ now exists "" |].
    destruct (s2 a b).
    + destruct (IH (String.length t2)) with (s := t2) as [l Hl];
        [ subst n; simpl; lia | reflexivity |].
      exists (String a (String b l)). simpl. now rewrite <- Hl.
    + destruct t2 as [| c t3]; [ now exists "" |].
      destruct (s3 a b c); [| now exists "" ].
      destruct (IH (String.length t3)) with (s := t3) as [l Hl];
        [ subst n; simpl; lia | reflexivity |].
      exists (String a (String b (String c l))). simpl. now rewrite <- Hl.
Qed.

Lemma rstrip_split (s : string) : exists r, s = (rstrip s ++ r)%string.
Proof.
  unfold rstrip.
  destruct (lstrip_with_split (fun a b => space2 b a) (fun a b c => space3 c b a)
                              (rev s)) as [l Hl].
  exists (rev l). rewrite <- rev_app, <- Hl. now rewrite rev_involutive.
Qed.

(** [strip] only trims: what it returns is a contiguous part of its
    argument. *)
Lemma strip_slice (s : string) : slice_of (strip s) s.
Proof.
  unfold strip, lstrip.
  destruct (lstrip_with_split space2 space3 s) as [l Hl].
  destruct (rstrip_split (lstrip_with space2 space3 s)) as [r Hr].
  exists l, r. now rewrite <- Hr.
Qed.

Lemma strip_chars_slice (chars s : string) : slice_of (strip_chars chars s) s.
Proof.
  destruct (strip_chars_split chars s) as (l & r & Hs & _).
  now exists l, r.
Qed.


(** What is left after trimming on the left does not start with
    whitespace. *)
Lemma lstrip_with_leading (s2 : ascii -> ascii -> bool)
      (s3 : ascii -> ascii -> ascii -> bool) (s : string) :
  leading_space s2 s3 (lstrip_with s2 s3 s) = false.
Proof.
  remember (String.length s) as n eqn:Hn. revert s Hn.
  induction n as [n IH] using lt_wf_ind. intros s Hn.
  destruct s as [| a s1]; [ reflexivity |].
  simpl lstrip_with. destruct (space1 a) eqn:Ha.
  - apply (IH (String.length s1)); [ subst n; simpl; lia | reflexivity ].
  - destruct s1 as [| b t2]; [ simpl; exact Ha |].
    destruct (s2 a b) eqn:Hab.
    + apply (IH (String.length t2)); [ subst n; simpl; lia | reflexivity ].
    + destruct t2 as [| c t3]; [ simpl; now rewrite Ha, Hab |].
      destruct (s3 a b c) eqn:Habc.
      * apply (IH (String.length t3)); [ subst n; simpl; lia | reflexivity ].
      * simpl. now rewrite Ha, Hab, Habc.
Qed.

(** A text that does not start with whitespace has no prefix that does. *)
Lemma leading_space_prefix (s2 : ascii -> ascii -> bool)
      (s3 : ascii -> ascii -> ascii -> bool) (p r : string) :
  leading_space s2 s3 (p ++ r) = false -> leading_space s2 s3 p = false.
Proof.
  destruct p as [| a [| b [| c p]]]; cbn [append leading_space]; intros H.
  - reflexivity.
  - destruct r as [| x [| y r]]; cbn [leading_space] in H.
    + exact H.
    + apply orb_false_iff in H. tauto.
    + apply orb_false_iff in H. destruct H as [H _].
      apply orb_false_iff in H. tauto.
  - destruct r as [| x r]; cbn [leading_space] in H; [ exact H |].
    apply orb_false_iff in H. tauto.
  - exact H.
Qed.

(** [strip] leaves no whitespace at either end. *)
Lemma strip_trimmed (s : string) : trimmed (strip s).
Proof.
  unfold trimmed, starts_with_space, ends_with_space. split.
  - unfold strip.
    destruct (rstrip_split (lstrip s)) as [r Hr].
    apply (leading_space_prefix _ _ _ r). rewrite <- Hr.
    apply lstrip_with_leading.
  - unfold strip, rstrip. rewrite rev_involutive.
    apply lstrip_with_leading.
Qed.

Lemma strip_empty : strip "" = "".
Proof. reflexivity. Qed.

Lemma trimmed_empty : trimmed "".
Proof. split; reflexivity. Qed.

End TextFacts.

(* ================================================================== *)
(** ** The function query on a function definition *)
(* ================================================================== *)

Module FunctionFacts.
Import Engine Spec MoreSpec Stractor.
Import EngineFacts MatchFacts StractorFacts QueryFacts.

Lemma maximal_single (m : Captures) : maximal [m] = [m].
Proof.
  apply (maximal_same_length (List.length m)). now repeat constructor.
Qed.

(** Of two matches, one of which subsumes the other, the longer is kept. *)
Lemma maximal_longer (big small : Captures) :
  subsumes big small = true -> maximal [big; small] = [big].
Proof.
  intros H. pose proof H as H'. apply subsumes_spec in H'. destruct H' as [Hlt _].
  unfold maximal. cbn [filter existsb]. rewrite H.
  assert (Hbb : subsumes big big = false).
  { unfold subsumes. now rewrite Nat.ltb_irrefl. }
  assert (Hsb : subsumes small big = false).
  { unfold subsumes. apply andb_false_iff. left. apply Nat.ltb_ge. lia. }
  rewrite Hbb, Hsb. reflexivity.
Qed.

Lemma match_at_plain_function (c x p b : Node) :
  plain_function c x p b ->
  match_at methods_scm c = [[("name", x); ("params", p); ("body", b)]].
Proof.
  intros (Hc & Hch & Hx & Hp & Hb).
  unfold methods_scm, child, child_opt. rewrite match_at_eq, Hc, Hch.
  cbn. rewrite Hx, Hp, Hb. cbn. reflexivity.
Qed.

Lemma match_at_annotated_function (c x p r b : Node) :
  annotated_function c x p r b ->
  match_at methods_scm c
  = [[("name", x); ("params", p); ("return_type", r); ("body", b)];
     [("name", x); ("params", p); ("body", b)]].
Proof.
  intros (Hc & Hch & Hx & Hp & Hr & Hb).
  unfold methods_scm, child, child_opt. rewrite match_at_eq, Hc, Hch.
  cbn. rewrite Hx, Hp, Hr, Hb. cbn. reflexivity.
Qed.

End FunctionFacts.

(* ================================================================== *)
(** ** More facts about the splitter and the extractors *)
(* ================================================================== *)

Module ExtraFacts.
Import Engine Spec MoreSpec Stractor.
Import EngineFacts MatchFacts PyStrFacts StractorFacts SplitterFacts QueryFacts.
Import TextFacts FunctionFacts.

(** One turn of the line loop. *)
Lemma filter_from_cons (needle line : string) (skip : bool)
      (lines : list string) :
  filter_from needle skip (line :: lines)
  = if PyStr.contains needle line && negb skip then
      filter_from needle true lines
    else if negb skip || PyStr.truthy (PyStr.strip line) then
           line :: filter_from needle false lines
         else filter_from needle skip lines.
Proof.
  unfold filter_from at 1. simpl.
  destruct (PyStr.contains needle line && negb skip); [ reflexivity |].
  destruct (negb skip || PyStr.truthy (PyStr.strip line)); [| reflexivity ].
  simpl. now rewrite fold_filter_step_acc.
Qed.

Lemma filter_from_subseq (needle : string) (lines : list string) :
  forall skip, subseq (filter_from needle skip lines) lines.
Proof.
  induction lines as [| line lines IH]; intros skip.
  - constructor.
  - rewrite filter_from_cons.
    destruct (PyStr.contains needle line && negb skip);
      [ apply subseq_skip, IH |].
    destruct (negb skip || PyStr.truthy (PyStr.strip line)).
    + apply subseq_take, IH.
    + apply subseq_skip, IH.
Qed.

(** A literal that holds a newline is found in no line. *)
Lemma filter_lines_multiline (needle text : string) :
  PyStr.mem_char PyStr.newline needle = true ->
  filter_lines needle (PyStr.split_lines text) = PyStr.split_lines text.
Proof.
  intros Hn. rewrite filter_lines_from.
  rewrite <- (app_nil_r (PyStr.split_lines text)) at 1.
  rewrite filter_from_misses; [ now rewrite filter_from_nil, app_nil_r |].
  eapply Forall_impl; [| apply split_lines_no_newline ].
  intros l Hl. simpl in Hl. apply not_true_is_false. intros Hc.
  rewrite (contains_mem_char _ _ _ Hc Hn) in Hl. discriminate.
Qed.

(** What the splitter returns when it finds a docstring. *)
Lemma extract_with_docstring (self : t) (body s : Node) (rest : list Node) :
  string_statements_in "block" body = s :: rest ->
  _extract_docstring_and_body self (Some body)
  = (Some (clean_docstring (_text self (Some s))),
     Some (clean_body
             (PyStr.strip
                (PyStr.join_lines
                   (filter_lines (PyStr.strip (_text self (Some s)))
                                 (PyStr.split_lines (_text self (Some body)))))))).
Proof.
  intros H. unfold _extract_docstring_and_body, block_docstring_scm.
  rewrite query_matches_docstring, H. reflexivity.
Qed.

(** What the splitter returns when it finds none. *)
Lemma extract_without_docstring (self : t) (body : Node) :
  string_statements_in "block" body = [] ->
  _extract_docstring_and_body self (Some body)
  = (None, Some (clean_body (_text self (Some body)))).
Proof.
  intros H. unfold _extract_docstring_and_body, block_docstring_scm.
  rewrite query_matches_docstring, H. reflexivity.
Qed.

Lemma substring_app_prefix (a b : string) :
  substring 0 (String.length a) (a ++ b) = a.
Proof.
  induction a as [| c a IH]; simpl.
  - destruct b; reflexivity.
  - now rewrite IH.
Qed.

Lemma truthy_nonempty (s : string) : s <> "" -> PyStr.truthy s = true.
Proof. destruct s; [ contradiction | reflexivity ]. Qed.

Lemma prefix_char (c : ascii) (s : string) :
  String.prefix (String c "") (String c s) = true.
Proof.
  simpl. destruct (ascii_dec c c); [| contradiction ]. now destruct s.
Qed.

Lemma startswith_char (c : ascii) (s : string) :
  PyStr.startswith (String c s) (String c "") = true.
Proof. apply prefix_char. Qed.

Lemma endswith_char (c : ascii) (s : string) :
  PyStr.endswith (s ++ String c "") (String c "") = true.
Proof.
  unfold PyStr.endswith. rewrite rev_app.
  change (PyStr.rev (String c "")) with (String c "").
  apply prefix_char.
Qed.

(** A body that is wrapped in braces once trimmed loses them. *)
Lemma clean_body_braces (text inner : string) :
  PyStr.strip text = ("{" ++ inner ++ "}")%string ->
  clean_body text = PyStr.strip inner.
Proof.
  intros H. unfold clean_body.
  rewrite truthy_nonempty by (intros ->; discriminate).
  assert (Hs : PyStr.startswith (PyStr.strip text) "{" = true).
  { rewrite H. apply (startswith_char "{" (inner ++ "}")). }
  assert (He : PyStr.endswith (PyStr.strip text) "}" = true).
  { rewrite H, <- str_app_assoc. apply (endswith_char "}" ("{" ++ inner)). }
  rewrite Hs, He, H. cbn [andb]. f_equal.
  unfold PyStr.drop_ends. simpl String.length. simpl substring.
  rewrite str_app_length. simpl String.length.
  replace (String.length inner + 1 - 1) with (String.length inner) by lia.
  apply substring_app_prefix.
Qed.

(** A body that does not start with a brace is only trimmed. *)
Lemma clean_body_plain (text : string) :
  PyStr.startswith (PyStr.strip text) "{" = false ->
  clean_body text = PyStr.strip text.
Proof.
  intros H. unfold clean_body. rewrite H.
  destruct text; reflexivity.
Qed.

(** The docstring the splitter returns is the cleaned text of a node. *)
Lemma extract_docstring_shape {lang : Language} (self : t)
      (body_node : option Node) :
  fst (_extract_docstring_and_body self body_node) = None
  \/ exists node,
      fst (_extract_docstring_and_body self body_node)
      = Some (clean_docstring (_text self (Some node))).
Proof.
  destruct body_node as [body |]; [| now left ].
  unfold _extract_docstring_and_body.
  destruct (matches block_docstring_scm body) as [| m ms]; [ now left |].
  destruct (_get_node m "doc") as [node |]; [| now left ].
  right. now exists node.
Qed.

(** The body the splitter returns is trimmed. *)
Lemma extract_body_trimmed {lang : Language} (self : t)
      (body_node : option Node) :
  opt_trimmed (snd (_extract_docstring_and_body self body_node)).
Proof.
  destruct body_node as [body |]; [| exact I ].
  assert (Hc : forall x, trimmed (clean_body x)).
  { intros x. unfold clean_body. destruct x as [| c x]; [ apply trimmed_empty |].
    cbn [PyStr.truthy].
    destruct (PyStr.startswith (PyStr.strip (String c x)) "{"
              && PyStr.endswith (PyStr.strip (String c x)) "}");
      apply strip_trimmed. }
  unfold _extract_docstring_and_body.
  destruct (matches block_docstring_scm body) as [| m ms]; [ apply Hc |].
  destruct (_get_node m "doc") as [node |]; apply Hc.
Qed.

Lemma function_name_eq (self : t) (m : Match) :
  Function.name (function_of_match self m) = _text self (_get_node m "name").
Proof.
  unfold function_of_match.
  destruct (_extract_docstring_and_body self (_get_node m "body")); reflexivity.
Qed.

Lemma function_parameters_eq (self : t) (m : Match) :
  Function.parameters (function_of_match self m)
  = PyStr.or_none (PyStr.strip_chars PyStr.paren_chars
                                     (_text self (_get_node m "params"))).
Proof.
  unfold function_of_match.
  destruct (_extract_docstring_and_body self (_get_node m "body")).
  cbn [Function.parameters].
  destruct (_text self (_get_node m "params")); reflexivity.
Qed.

Lemma function_return_type_eq (self : t) (m : Match) :
  Function.return_type (function_of_match self m)
  = PyStr.or_none (_text self (_get_node m "return_type")).
Proof.
  unfold function_of_match.
  destruct (_extract_docstring_and_body self (_get_node m "body")); reflexivity.
Qed.

(** The text of a node is a contiguous part of the contents. *)
Lemma text_slice (self : t) (node : option Node) :
  slice_of (_text self node) (contents self).
Proof.
  destruct node as [n |]; simpl.
  - destruct (substring_slice (start_byte n) (end_byte n - start_byte n)
                              (contents self)) as (pre & post & H & _).
    now exists pre, post.
  - exists "", (contents self). reflexivity.
Qed.

Lemma or_none_slice (s whole : string) :
  slice_of s whole -> opt_slice_of (PyStr.or_none s) whole.
Proof.
  intros H. unfold PyStr.or_none. destruct (PyStr.truthy s); [ exact H | exact I ].
Qed.

Lemma or_none_trimmed (s : string) :
  trimmed s -> opt_trimmed (PyStr.or_none s).
Proof.
  intros H. unfold PyStr.or_none. destruct (PyStr.truthy s); [ exact H | exact I ].
Qed.

Lemma clean_docstring_slice (text : string) :
  slice_of (clean_docstring text) text.
Proof.
  unfold clean_docstring.
  exact (slice_of_trans _ _ _ (strip_slice _) (strip_chars_slice _ _)).
Qed.

(** Cleaning a text made of quote characters leaves nothing. *)
Lemma clean_docstring_quotes (text : string) :
  all_in PyStr.quote_chars text = true -> clean_docstring text = "".
Proof.
  intros H. unfold clean_docstring, PyStr.strip_chars.
  assert (Hl : PyStr.lstrip_chars PyStr.quote_chars text = "").
  { induction text as [| c text IH]; [ reflexivity |].
    cbn [all_in] in H. apply andb_prop in H. destruct H as [Hc Ht].
    cbn [PyStr.lstrip_chars]. rewrite Hc. now apply IH. }
  rewrite Hl. reflexivity.
Qed.

End ExtraFacts.

(* ================================================================== *)
(** ** Further properties of the extraction engine *)
(* ================================================================== *)

Section Further.
Import Engine Spec MoreSpec Stractor Order Examples MoreExamples.
Import EngineFacts MatchFacts PyStrFacts StractorFacts SplitterFacts QueryFacts.
Import ClassFacts OrderFacts TextFacts FunctionFacts ExtraFacts.

(** X1.  The text of a node is a contiguous part of the contents; it is
    never longer than the byte range of the node, and has exactly that
    length when the range lies inside the contents: a range that reaches
    past the end of the contents is cut short by the slice. *)
Theorem X1_text_is_a_slice (self : Stractor.t) (n : Node) :
  slice_of (_text self (Some n)) (contents self)
  /\ String.length (_text self (Some n)) <= end_byte n - start_byte n
  /\ (start_byte n <= end_byte n ->
      end_byte n <= String.length (contents self) ->
      String.length (_text self (Some n)) = end_byte n - start_byte n).
Proof.
  repeat split.
  - apply text_slice.
  - unfold _text. rewrite substring_length. apply Nat.le_min_l.
  - intros H1 H2. unfold _text. rewrite substring_length. lia.
Qed.

(** The import statement of [import_only]. *)
Lemma X1_text_is_a_slice_witness :
  String.length
    (_text import_only (hd_error (child_nodes (tree import_only)))) = 9.
Proof.
  refine (proj2 (proj2 (X1_text_is_a_slice
                          import_only
                          (mkNode "import_statement" 0 9
                                  [(Some "name",
                                    mkNode "dotted_name" 7 9
                                           [(None, mkNode "identifier" 7 9 [])])])))
                _ _).
  - simpl. lia.
  - vm_compute. lia.
Defined.

(** X2.  Every entry of the imports and of the top-level attributes is a
    non-empty contiguous part of the source text. *)
Theorem X2_statements_are_slices (self : Stractor.t) (entries : list string) :
  _get_imports self = Ok entries \/ _get_top_level_attributes self = Ok entries ->
  Forall (fun entry => entry <> "" /\ slice_of entry (contents self)) entries.
Proof.
  assert (H : forall nodes,
             Forall (fun entry => entry <> "" /\ slice_of entry (contents self))
                    (collect_texts self nodes)).
  { intros nodes. rewrite collect_texts_eq. unfold texts.
    apply Forall_forall. intros entry Hin. apply filter_In in Hin.
    destruct Hin as [Hin Ht]. apply in_map_iff in Hin.
    destruct Hin as (n & <- & _). split.
    - intros He. rewrite He in Ht. discriminate.
    - apply text_slice. }
  unfold _get_imports, _get_top_level_attributes.
  intros [Hi | Ha].
  - destruct (getitem (captures imports_scm (tree self)) "import");
      [| discriminate ].
    simpl in Hi. inversion Hi. apply H.
  - destruct (getitem (captures attributes_scm (tree self)) "assignment");
      [| discriminate ].
    simpl in Ha. inversion Ha. apply H.
Qed.

(** The imports of [import_only]. *)
Lemma X2_statements_are_slices_witness :
  _get_imports import_only = Ok ["import os"]
  /\ Forall (fun entry => entry <> "" /\ slice_of entry (contents import_only))
            ["import os"].
Proof.
  split; [ reflexivity |].
  exact (X2_statements_are_slices import_only ["import os"] (or_introl eq_refl)).
Defined.

(** X3.  A function definition without a return type gives exactly one
    [Function]: its name is the text of the name, its parameters are the
    text of the parameter list without its outer parentheses, and its
    return type is [None].  A function definition with a return type gives
    exactly one [Function] too, and its return type is the text of the
    annotation. *)
Theorem X3_one_function_per_definition (self : Stractor.t) (c x p b : Node) :
  (plain_function c x p b ->
   exists f,
     functions_at self c = [f]
     /\ Function.name f = _text self (Some x)
     /\ Function.parameters f
        = PyStr.or_none (PyStr.strip_chars PyStr.paren_chars (_text self (Some p)))
     /\ Function.return_type f = None)
  /\ (forall r,
         annotated_function c x p r b ->
         exists f,
           functions_at self c = [f]
           /\ Function.name f = _text self (Some x)
           /\ Function.parameters f
              = PyStr.or_none (PyStr.strip_chars PyStr.paren_chars (_text self (Some p)))
           /\ Function.return_type f = PyStr.or_none (_text self (Some r))).
Proof.
  split.
  - intros H. unfold functions_at, matches_at.
    rewrite (match_at_plain_function c x p b H), maximal_single.
    eexists. split; [ reflexivity |].
    now rewrite function_name_eq, function_parameters_eq, function_return_type_eq.
  - intros r H. unfold functions_at, matches_at.
    rewrite (match_at_annotated_function c x p r b H), maximal_longer.
    + eexists. split; [ reflexivity |].
      now rewrite function_name_eq, function_parameters_eq,
        function_return_type_eq.
    + apply subsumes_spec. split; [ simpl; lia |].
      intros cap [<- | [<- | [<- | []]]]; simpl; tauto.
Qed.

(** The function of [annotated], written [def f() -> int:]. *)
Lemma X3_one_function_per_definition_witness :
  map (fun f => (Function.name f, Function.return_type f))
      (flat_map (functions_at annotated) (child_nodes (tree annotated)))
  = [("f", Some "int")].
Proof.
  destruct (proj2 (X3_one_function_per_definition
                     annotated
                     (mkNode "function_definition" 0 24
                             [(Some "name", mkNode "identifier" 4 5 []);
                              (Some "parameters", mkNode "parameters" 5 7 []);
                              (Some "return_type",
                               mkNode "type" 11 14
                                      [(None, mkNode "identifier" 11 14 [])]);
                              (Some "body",
                               mkNode "block" 20 24
                                      [(None, mkNode "pass_statement" 20 24 [])])])
                     (mkNode "identifier" 4 5 [])
                     (mkNode "parameters" 5 7 [])
                     (mkNode "block" 20 24 [(None, mkNode "pass_statement" 20 24 [])]))
                  (mkNode "type" 11 14 [(None, mkNode "identifier" 11 14 [])])
                  (conj eq_refl (conj eq_refl (conj eq_refl
                     (conj eq_refl (conj eq_refl eq_refl))))))
    as (f & Hf & Hname & _ & Hret).
  cbn [tree annotated annotated_tree child_nodes children map snd flat_map].
  rewrite Hf. cbn [app map]. now rewrite Hname, Hret.
Defined.

(** X4.  A docstring literal that spans several lines is never removed
    from the body: no line of the body contains it, the loop keeps every
    line, and the body is the whole text of the block, trimmed and cleaned,
    with the literal still in it.  The literal is the string statement that
    is before every other one in the blocks of the body, for every engine
    within the contract. *)
Theorem X4_multiline_literal_stays (lang : Language) (self : Stractor.t)
        (body s : Node) :
  conforms lang ->
  comes_first s (string_statements_in "block" body) = true ->
  PyStr.mem_char PyStr.newline (PyStr.strip (_text self (Some s))) = true ->
  _extract_docstring_and_body self (Some body)
  = (Some (clean_docstring (_text self (Some s))),
     Some (clean_body (PyStr.strip (_text self (Some body))))).
Proof.
  intros Hlang Hs Hn. rewrite (extract_first Hlang self body s Hs).
  now rewrite filter_lines_multiline, join_split_lines by assumption.
Qed.

(** The body of [f] in [multiline_doc], with the engine [end_order]. *)
Lemma X4_multiline_literal_stays_witness :
  comes_first multiline_literal (string_statements_in "block" multiline_block)
  = true
  /\ _extract_docstring_and_body (lang := end_order) multiline_doc
                                 (Some multiline_block)
     = (Some (PyStr.join_lines ["a"; "    b"]),
        Some (PyStr.join_lines ["'''a"; "    b'''"])).
Proof.
  split; [ reflexivity |].
  exact (X4_multiline_literal_stays
           end_order multiline_doc multiline_block multiline_literal
           end_order_conforms eq_refl eq_refl).
Defined.

(** X5.  A body that consists of the line of its docstring, followed by
    blank lines at most, gives [body = None]. *)
Theorem X5_docstring_only_body (self : Stractor.t) (m : Match) (body s : Node)
        (others : list Node) (d : string) (blanks : list string) :
  _get_node m "body" = Some body ->
  string_statements_in "block" body = s :: others ->
  PyStr.split_lines (_text self (Some body)) = d :: blanks ->
  PyStr.contains (PyStr.strip (_text self (Some s))) d = true ->
  Forall (fun l => blank l = true) blanks ->
  Function.body (function_of_match self m) = None.
Proof.
  intros Hm Hs Hl Hd Hb.
  rewrite function_body_eq, Hm, (extract_with_docstring self body s others Hs).
  rewrite Hl, filter_lines_from, filter_from_hit by assumption.
  rewrite <- (app_nil_r blanks), filter_from_blanks by assumption.
  reflexivity.
Qed.

(** The function of [doc_only]. *)
Lemma X5_docstring_only_body_witness :
  PyStr.split_lines (_text doc_only (Some doc_only_block)) = ["'doc'"]
  /\ map Function.body (_get_module_functions doc_only) = [None].
Proof.
  split; [ reflexivity |].
  change (_get_module_functions doc_only)
    with [function_of_match doc_only doc_only_match].
  cbn [map].
  rewrite (X5_docstring_only_body
             doc_only doc_only_match doc_only_block doc_only_literal []
             "'doc'" [] eq_refl eq_refl eq_refl eq_refl (Forall_nil _)).
  reflexivity.
Defined.

(** X6.  A body without a string statement has no documentation, and its
    text is kept whole: unless it starts with a brace, the body is the text
    of the block without its outer whitespace. *)
Theorem X6_body_without_docstring (self : Stractor.t) (m : Match) (body : Node) :
  _get_node m "body" = Some body ->
  string_statements_in "block" body = [] ->
  PyStr.startswith (PyStr.strip (_text self (Some body))) "{" = false ->
  Function.documentation (function_of_match self m) = None
  /\ Function.body (function_of_match self m)
     = PyStr.or_none (PyStr.strip (_text self (Some body))).
Proof.
  intros Hm Hs Hb.
  rewrite function_documentation_eq, function_body_eq, Hm.
  rewrite (extract_without_docstring self body Hs).
  cbn [fst snd opt_or_none]. now rewrite clean_body_plain.
Qed.

(** The function of [annotated], whose body is [pass]. *)
Lemma X6_body_without_docstring_witness :
  string_statements_in "block" annotated_block = []
  /\ Function.body (function_of_match annotated annotated_match) = Some "pass".
Proof.
  split; [ reflexivity |].
  exact (proj2 (X6_body_without_docstring
                  annotated annotated_match annotated_block
                  eq_refl eq_refl eq_refl)).
Defined.

(** X7.  The clean-up of the body removes a pair of outer braces: a body
    whose trimmed text is wrapped in braces, such as a dictionary display
    standing alone, is emitted without them. *)
Theorem X7_outer_braces_are_removed (self : Stractor.t) (m : Match)
        (body : Node) (inner : string) :
  _get_node m "body" = Some body ->
  string_statements_in "block" body = [] ->
  PyStr.strip (_text self (Some body)) = ("{" ++ inner ++ "}")%string ->
  Function.body (function_of_match self m) = PyStr.or_none (PyStr.strip inner).
Proof.
  intros Hm Hs Ht.
  rewrite function_body_eq, Hm, (extract_without_docstring self body Hs).
  cbn [snd opt_or_none]. now rewrite (clean_body_braces _ inner Ht).
Qed.

(** The function of [dict_body]: its body is the text [1: 2]. *)
Lemma X7_outer_braces_are_removed_witness :
  _text dict_body (Some dict_block) = "{1: 2}"
  /\ map Function.body (_get_module_functions dict_body) = [Some "1: 2"].
Proof.
  split; [ reflexivity |].
  change (_get_module_functions dict_body)
    with [function_of_match dict_body dict_body_match].
  cbn [map].
  rewrite (X7_outer_braces_are_removed
             dict_body dict_body_match dict_block "1: 2"
             eq_refl eq_refl eq_refl).
  reflexivity.
Defined.

(** X8.  The line loop of the splitter only drops lines: what it returns is
    the list of the lines of the body with some of them left out, in the
    same order and unchanged. *)
Theorem X8_splitter_only_drops_lines (needle : string) (lines : list string) :
  subseq (filter_lines needle lines) lines.
Proof.
  rewrite filter_lines_from. apply filter_from_subseq.
Qed.


(** X9.  A module that has import statements but no assignment at its top
    level cannot be parsed: the capture dictionary of the attribute query
    has no [assignment] key, and the lookup raises. *)
Theorem X9_parse_raises_without_assignments
        (parser_parse : string -> Result Node)
        (source_code path : string) (root : Node) :
  parser_parse source_code = Ok root ->
  module_tree root = true ->
  filter is_import (child_nodes root) <> [] ->
  statements_of "assignment" root = [] ->
  parse parser_parse source_code path = Raise (KeyError "assignment").
Proof.
  intros Hp Ht Hi Ha. unfold parse. rewrite Hp. cbn [bind].
  rewrite get_imports_eq by exact Ht. cbn [tree] in *.
  destruct (filter is_import (child_nodes root)) as [| i imports]; [ now elim Hi |].
  cbn [bind].
  rewrite get_top_level_attributes_eq by exact Ht. cbn [tree].
  now rewrite Ha.
Qed.

(** The module [import_only]. *)
Lemma X9_parse_raises_without_assignments_witness :
  parse (fun _ => Ok import_only_tree) import_only_src "os.py"
  = Raise (KeyError "assignment").
Proof.
  apply (X9_parse_raises_without_assignments
           (fun _ => Ok import_only_tree) import_only_src "os.py"
           import_only_tree eq_refl eq_refl).
  - vm_compute. discriminate.
  - reflexivity.
Defined.

(** X10.  For every engine within the contract, a module with at least one
    import statement and at least one top-level assignment is parsed
    without an error.  The result carries the path it was given, unchanged,
    and the module docstring; its imports and its attributes are the texts
    of the import statements and of the assignments of the module, one
    entry each, in the order of the capture dictionary; it has one function
    per match of the function pattern and one entity per match of the class
    pattern. *)
Theorem X10_parse_returns_the_outline
        (lang : Language) (parser_parse : string -> Result Node)
        (source_code path : string) (root : Node) :
  conforms lang ->
  parser_parse source_code = Ok root ->
  module_tree root = true ->
  filter is_import (child_nodes root) <> [] ->
  statements_of "assignment" root <> [] ->
  exists file,
    parse parser_parse source_code path = Ok file
    /\ SourceFile.path file = path
    /\ SourceFile.documentation file
       = _get_module_docstring (Stractor.mk source_code root)
    /\ Permutation (SourceFile.imports file)
                   (texts (Stractor.mk source_code root)
                          (filter is_import (child_nodes root)))
    /\ Permutation (SourceFile.top_level_attributes file)
                   (texts (Stractor.mk source_code root)
                          (statements_of "assignment" root))
    /\ List.length (SourceFile.top_level_functions file)
       = List.length (query_matches functions_scm root)
    /\ List.length (SourceFile.entities file)
       = List.length (query_matches classes_scm root).
Proof.
  intros Hlang Hp Ht Hi Ha.
  pose proof (imports_delivered Hlang (Stractor.mk source_code root) Ht) as Hid.
  pose proof (attributes_delivered Hlang (Stractor.mk source_code root) Ht) as Had.
  cbn [tree] in Hid, Had.
  destruct (filter is_import (child_nodes root)) as [| i imports];
    [ now elim Hi |].
  destruct (statements_of "assignment" root) as [| a attributes];
    [ now elim Ha |].
  destruct Hid as (is' & Hip & Hie). destruct Had as (as' & Hap & Hae).
  destruct (classes_delivered Hlang (Stractor.mk source_code root))
    as (ms & entities & Hperm & _ & Hc & HF).
  cbn [tree] in Hperm.
  eexists. split.
  - exact (parse_ok_intro parser_parse source_code path root _ _ _ Hp Hie Hae Hc).
  - cbn [SourceFile.path SourceFile.documentation SourceFile.imports
         SourceFile.top_level_attributes SourceFile.top_level_functions
         SourceFile.entities].
    repeat split.
    + now apply texts_permutation.
    + now apply texts_permutation.
    + rewrite (Permutation_length
                 (delivered_permutation
                    _ _ _ (module_functions_delivered
                             Hlang (Stractor.mk source_code root)))).
      apply length_map.
    + rewrite (Forall2_length HF). now apply Permutation_length.
Qed.

(** The module [outline], with the engine [end_order]. *)
Lemma X10_parse_returns_the_outline_witness :
  exists file,
    parse (lang := end_order) (fun _ => Ok outline_tree) outline_src "outline.py"
    = Ok file
    /\ SourceFile.path file = "outline.py"
    /\ List.length (SourceFile.imports file) = 3.
Proof.
  destruct (X10_parse_returns_the_outline
              end_order (fun _ => Ok outline_tree) outline_src "outline.py"
              outline_tree end_order_conforms eq_refl eq_refl)
    as (file & Hfile & Hpath & _ & Himports & _).
  - vm_compute. discriminate.
  - vm_compute. discriminate.
  - exists file. split; [ exact Hfile |]. split; [ exact Hpath |].
    now rewrite (Permutation_length Himports).
Defined.

(** X11.  The parameters of a function are the text of its parameter list
    with every parenthesis cut off both ends: what is cut is made of
    parentheses only, and what is left neither starts nor ends with one. *)
Theorem X11_parameters_without_outer_parentheses
        (self : Stractor.t) (m : Match) (p : string) :
  Function.parameters (function_of_match self m) = Some p ->
  (exists l r,
      _text self (_get_node m "params") = (l ++ p ++ r)%string
      /\ all_in PyStr.paren_chars l = true
      /\ all_in PyStr.paren_chars r = true)
  /\ head_in PyStr.paren_chars p = false
  /\ last_in PyStr.paren_chars p = false.
Proof.
  rewrite function_parameters_eq. intros H. apply or_none_some in H. subst p.
  destruct (strip_chars_split PyStr.paren_chars
                              (_text self (_get_node m "params")))
    as (l & r & Hs & Hl & Hr & Hh & Hlast).
  split; [| split; assumption ].
  now exists l, r.
Qed.

(** The function of [call_default], whose parameter list ends with a
    call. *)
Lemma X11_parameters_without_outer_parentheses_witness :
  head_in PyStr.paren_chars "x=g" = false
  /\ last_in PyStr.paren_chars "x=g" = false.
Proof.
  exact (proj2 (X11_parameters_without_outer_parentheses
                  call_default call_default_match "x=g" eq_refl)).
Defined.

(** X12.  A docstring literal made of quote characters only, such as the
    empty string, is no documentation: when it is the string statement that
    is before every other one, the module docstring is [None], and so is the
    documentation of a function in whose body it stands, for every engine
    within the contract. *)
Theorem X12_empty_docstring_is_none
        (lang : Language) (self : Stractor.t) (scope : string) (root s : Node) :
  conforms lang ->
  comes_first s (string_statements_in scope root) = true ->
  all_in PyStr.quote_chars (_text self (Some s)) = true ->
  (scope = "module" -> root = tree self -> _get_module_docstring self = None)
  /\ (scope = "block" ->
      forall m, _get_node m "body" = Some root ->
                Function.documentation (function_of_match self m) = None).
Proof.
  intros Hlang Hs Hq. split.
  - intros -> ->. rewrite (module_docstring_first Hlang self s Hs).
    now rewrite clean_docstring_quotes.
  - intros -> m Hm. rewrite function_documentation_eq, Hm.
    rewrite (extract_first Hlang self root s Hs). cbn [fst opt_or_none].
    now rewrite clean_docstring_quotes.
Qed.

(** The module [empty_doc], which starts with an empty literal, with the
    engine [end_order]. *)
Lemma X12_empty_docstring_is_none_witness :
  _get_module_docstring (lang := end_order) empty_doc = None.
Proof.
  exact (proj1 (X12_empty_docstring_is_none
                  end_order empty_doc "module" empty_doc_tree empty_literal
                  end_order_conforms eq_refl eq_refl)
               eq_refl eq_refl).
Defined.

(** X13.  Listing the classes never raises.  Every entity it returns has
    the type [class], and its name is the text of the identifier in the
    [name] field of a class definition of the tree. *)
Theorem X13_entities_are_named_classes (self : Stractor.t) :
  exists entities,
    _get_classes self = Ok entities
    /\ Forall
         (fun entity =>
            Entity.type entity = "class"
            /\ exists class_node identifier,
                In class_node (preorder (tree self))
                /\ has_type "class_definition" class_node = true
                /\ In (Some "name", identifier) (children class_node)
                /\ has_type "identifier" identifier = true
                /\ Entity.name entity = _text self (Some identifier))
         entities.
Proof.
  exists (entities_in self (tree self)). split; [ apply get_classes_eq |].
  apply Forall_forall. intros e He. unfold entities_in in He.
  apply in_map_iff in He. destruct He as (m & <- & Hm).
  apply in_query_matches in Hm. destruct Hm as (c & Hc & Hm).
  destruct (class_match_node c m Hm) as [_ Hty].
  destruct (class_match_name c m Hm) as (x & Hx & Hin & Hid).
  split; [ reflexivity |].
  exists c, x. repeat split; try assumption.
  unfold entity_at. cbn [Entity.name]. now rewrite Hx.
Qed.

(** X14.  The name, the parameters, the return type and the documentation
    of a function, the module docstring, and the name and the documentation
    of an entity are each a contiguous part of the contents: nothing is
    put in, and nothing is taken out of the middle. *)
Theorem X14_fields_are_slices (self : Stractor.t) :
  (forall m,
      slice_of (Function.name (function_of_match self m)) (contents self)
      /\ opt_slice_of (Function.parameters (function_of_match self m))
                      (contents self)
      /\ opt_slice_of (Function.return_type (function_of_match self m))
                      (contents self)
      /\ opt_slice_of (Function.documentation (function_of_match self m))
                      (contents self))
  /\ opt_slice_of (_get_module_docstring self) (contents self)
  /\ exists entities,
      _get_classes self = Ok entities
      /\ Forall
           (fun entity =>
              slice_of (Entity.name entity) (contents self)
              /\ opt_slice_of (Entity.documentation entity) (contents self))
           entities.
Proof.
  assert (Hclean : forall node,
             slice_of (clean_docstring (_text self node)) (contents self)).
  { intros node.
    exact (slice_of_trans _ _ _ (clean_docstring_slice _) (text_slice self node)). }
  split; [| split ].
  - intros m. repeat split.
    + rewrite function_name_eq. apply text_slice.
    + rewrite function_parameters_eq. apply or_none_slice.
      exact (slice_of_trans _ _ _ (strip_chars_slice _ _) (text_slice self _)).
    + rewrite function_return_type_eq. apply or_none_slice, text_slice.
    + rewrite function_documentation_eq.
      destruct (extract_docstring_shape self (_get_node m "body"))
        as [-> | [node ->]]; [ exact I |].
      cbn [opt_or_none]. apply or_none_slice, Hclean.
  - rewrite get_module_docstring_eq.
    destruct (string_statements_in "module" (tree self)) as [| s ss]; [ exact I |].
    apply or_none_slice, Hclean.
  - exists (entities_in self (tree self)). split; [ apply get_classes_eq |].
    apply Forall_forall. intros e He. unfold entities_in in He.
    apply in_map_iff in He. destruct He as (m & <- & _).
    unfold entity_at. cbn [Entity.name Entity.documentation]. split.
    + apply text_slice.
    + apply or_none_slice.
      destruct (PyStr.truthy (_text self (_get_node m "doc")));
        [ apply Hclean | apply text_slice ].
Qed.

(** X15.  The documentation and the body of a function, the module
    docstring and the documentation of an entity have no whitespace at
    either end. *)
Theorem X15_texts_are_trimmed (self : Stractor.t) :
  (forall m,
      opt_trimmed (Function.documentation (function_of_match self m))
      /\ opt_trimmed (Function.body (function_of_match self m)))
  /\ opt_trimmed (_get_module_docstring self)
  /\ exists entities,
      _get_classes self = Ok entities
      /\ Forall (fun entity => opt_trimmed (Entity.documentation entity))
                entities.
Proof.
  assert (Hclean : forall text, trimmed (clean_docstring text)).
  { intros text. apply strip_trimmed. }
  assert (Hopt : forall x, opt_trimmed x -> opt_trimmed (opt_or_none x)).
  { intros [x |] H; [ now apply or_none_trimmed | exact I ]. }
  split; [| split ].
  - intros m. split.
    + rewrite function_documentation_eq.
      destruct (extract_docstring_shape self (_get_node m "body"))
        as [-> | [node ->]]; [ exact I |].
      cbn [opt_or_none]. apply or_none_trimmed, Hclean.
    + rewrite function_body_eq. apply Hopt, extract_body_trimmed.
  - rewrite get_module_docstring_eq.
    destruct (string_statements_in "module" (tree self)) as [| s ss]; [ exact I |].
    apply or_none_trimmed, Hclean.
  - exists (entities_in self (tree self)). split; [ apply get_classes_eq |].
    apply Forall_forall. intros e He. unfold entities_in in He.
    apply in_map_iff in He. destruct He as (m & <- & _).
    unfold entity_at. cbn [Entity.documentation].
    destruct (_text self (_get_node m "doc")) as [| c d] eqn:Hd.
    + exact I.
    + cbn [PyStr.truthy]. apply or_none_trimmed, Hclean.
Qed.

End Further.
